(** * accounts/abstract_models.py: the double-entry ledger of django-oscar-accounts

    A shallow embedding of [Account], [PostingManager], [Transfer] and
    [Transaction], followed by the properties the specification states about
    them.

    Conventions of the embedding.
    - A [Decimal] with two decimal places (every [DecimalField] of the module
      has [decimal_places=2]) is the integer number of hundredths, a [Z]:
      [D('10.01')] is [1001].
    - A [DateField] value is the day's proleptic ordinal ([date.toordinal()]),
      a [Z]; [datetime.date.today()] is an explicit argument.
    - A nullable column is an [option].
    - The database is an explicit [Store]; a method that reads or writes it is
      a computation in the monad [M], which threads the store and may raise.
      A method that mutates [self] returns the new value of [self].
    - A string is a byte string, as [str] is in the Python 2 this module is
      written for; [upper()] maps the letters a-z to A-Z.
    - The columns that no method of the module reads or writes ([name],
      [description], [category], the user links of an account,
      [product_range], [date_created]) are left out of the records.  Of the
      constraints the columns declare, the one the module relies on,
      [unique_together] of [Transaction], is modelled; the [unique] flags of
      the account's [name] and [code] and the length and digit limits are
      not. *)

From Stdlib Require Import ZArith Ascii String List Lia.
From Stdlib Require Import DecimalString DecimalNat DecimalFacts.
From stdpp Require Import base option list gmap.
Import ListNotations.

Local Open Scope Z_scope.
Local Open Scope string_scope.

(** ** Exceptions *)

(** One argument of a [%]-formatted message. *)
Inductive fmt_arg : Type :=
  | ArgDecimal (d : Z)
  | ArgInt (n : nat).

(** A message: the format string and the tuple it is applied to with [%]
    (empty for a plain string). *)
Record message : Type := Msg { msg_format : string; msg_args : list fmt_arg }.

(** Modelled from the spec: accounts/exceptions.py is not part of the sources;
    the module raises its classes [InvalidAmount], [ClosedAccount],
    [InsufficientFunds] and [AccountNotEmpty], which the specification's error
    taxonomy lists as four distinct kinds of caller error.  The remaining
    constructors are the exceptions of Python and Django the module can raise:
    [RuntimeError] (raised by the [delete] methods), [TypeError] (arithmetic on
    [None]), [IntegrityError] (a violated database constraint) and
    [DoesNotExist] (a query for a missing row). *)
Inductive exn : Type :=
  | InvalidAmount (m : message)
  | ClosedAccount (m : message)
  | InsufficientFunds (m : message)
  | AccountNotEmpty
  | RuntimeError (m : message)
  | TypeError
  | IntegrityError
  | DoesNotExist.

(** The validation errors of the ledger, as opposed to programming errors. *)
Definition is_validation_error (e : exn) : bool :=
  match e with
  | InvalidAmount _ | ClosedAccount _ | InsufficientFunds _ | AccountNotEmpty => true
  | _ => false
  end.

(** The outcome of a call: an exception or a value. *)
Inductive result (A : Type) : Type :=
  | Raise (e : exn)
  | Return (a : A).
Arguments Raise {A} e.
Arguments Return {A} a.

(** ** Rows and model instances *)

Module User.
(** [auth.User], of which the module reads [username] only. *)
Record t : Type := mk { id : nat; username : string }.
End User.

Module Account.
Record t : Type := mk {
  id : nat;
  code : option string;
  status : string;
  credit_limit : option Z;
  balance : option Z;
  start_date : option Z;
  end_date : option Z
}.

Definition OPEN : string := "Open".
Definition CLOSED : string := "Closed".

Definition set_code (self : t) (c : option string) : t :=
  mk (id self) c (status self) (credit_limit self) (balance self)
     (start_date self) (end_date self).

Definition set_balance (self : t) (b : option Z) : t :=
  mk (id self) (code self) (status self) (credit_limit self) b
     (start_date self) (end_date self).

Definition set_status (self : t) (s : string) : t :=
  mk (id self) (code self) s (credit_limit self) (balance self)
     (start_date self) (end_date self).

(** [Account(id=i)]: every other field takes the default its column
    declares ([status=OPEN], [credit_limit=D('0.00')], [balance=D('0.00')],
    no code, no dates). *)
Definition new (i : nat) : t :=
  mk i None OPEN (Some 0) (Some 0) None None.
End Account.

Module Transfer.
(** A [Transfer] instance; [id] is [None] until the instance is saved, and
    [user] is the related [auth.User] object that [self.user] evaluates to
    ([None] when the column is null). *)
Record t : Type := mk {
  id : option nat;
  source : nat;
  destination : nat;
  amount : Z;
  description : option string;
  user : option User.t;
  username : string
}.

(** The row of a transfer: the [user] column holds the user's key. *)
Record row : Type := mk_row {
  row_id : nat;
  row_source : nat;
  row_destination : nat;
  row_amount : Z;
  row_description : option string;
  row_user_id : option nat;
  row_username : string
}.

Definition to_row (i : nat) (self : t) : row :=
  mk_row i (source self) (destination self) (amount self)
         (description self) (User.id <$> user self) (username self).

Definition set_username (self : t) (n : string) : t :=
  mk (id self) (source self) (destination self) (amount self)
     (description self) (user self) n.

Definition set_id (self : t) (i : option nat) : t :=
  mk i (source self) (destination self) (amount self)
     (description self) (user self) (username self).

Definition set_row_user_id (r : row) (u : option nat) : row :=
  mk_row (row_id r) (row_source r) (row_destination r) (row_amount r)
         (row_description r) u (row_username r).
End Transfer.

Module Transaction.
(** A row of the ledger: [transfer] and [account] are the keys of the rows
    the two foreign keys point to. *)
Record t : Type := mk {
  transfer : nat;
  account : nat;
  amount : Z
}.
End Transaction.

(** ** The database *)

Record Store : Type := mkStore {
  accounts : gmap nat Account.t;
  transfers : list Transfer.row;
  transactions : list Transaction.t;
  users : gmap nat string
}.

Definition set_accounts (db : Store) (a : gmap nat Account.t) : Store :=
  mkStore a (transfers db) (transactions db) (users db).
Definition set_transfers (db : Store) (t : list Transfer.row) : Store :=
  mkStore (accounts db) t (transactions db) (users db).
Definition set_transactions (db : Store) (t : list Transaction.t) : Store :=
  mkStore (accounts db) (transfers db) t (users db).
Definition set_users (db : Store) (u : gmap nat string) : Store :=
  mkStore (accounts db) (transfers db) (transactions db) u.

Definition empty_store : Store := mkStore ∅ [] [] ∅.

(** ** The monad of database computations *)

Definition M (A : Type) : Type := Store -> Store * result A.

Definition ret {A} (a : A) : M A := fun db => (db, Return a).
Definition raise {A} (e : exn) : M A := fun db => (db, Raise e).
Definition bind {A B} (m : M A) (k : A -> M B) : M B :=
  fun db =>
    match m db with
    | (db', Return a) => k a db'
    | (db', Raise e) => (db', Raise e)
    end.
Definition gets {A} (f : Store -> A) : M A := fun db => (db, Return (f db)).
Definition modify (f : Store -> Store) : M unit := fun db => (f db, Return tt).
Definition lift {A} (r : result A) : M A := fun db => (db, r).

Notation "'do' x <- m ; k" := (bind m (fun x => k))
  (at level 10, x name, m at level 100, k at level 200).
Notation "'run' m ; k" := (bind m (fun _ => k))
  (at level 10, m at level 100, k at level 200).

(** [with transaction.commit_on_success(): body]: the writes of [body] are
    committed when it returns and rolled back when it raises; the exception
    propagates. *)
Definition commit_on_success {A} (body : M A) : M A :=
  fun db =>
    match body db with
    | (db', Return a) => (db', Return a)
    | (_, Raise e) => (db, Raise e)
    end.

(** ** Account *)

(** [Account.is_active], with [today = datetime.date.today()].  A [date] is
    always true in a condition, so [self.start_date] as a condition is
    [self.start_date is not None]. *)
Definition is_active (self : Account.t) (today : Z) : bool :=
  match Account.start_date self, Account.end_date self with
  | None, None => true
  | Some s, None => bool_decide (today >= s)
  | None, Some e => bool_decide (today < e)
  | Some s, Some e => bool_decide (s <= today) && bool_decide (today < e)
  end.

(** [Sum('amount')] over a query set: SQL's [SUM] is [NULL] over no rows. *)
Definition Sum (amounts : list Z) : option Z :=
  match amounts with
  | [] => None
  | _ => Some (foldr Z.add 0 amounts)
  end.

(** [self.transactions]: the ledger rows whose [account] is [self]. *)
Definition account_transactions (db : Store) (i : nat) : list Transaction.t :=
  filter (fun tx => Transaction.account tx = i) (transactions db).

(** [Account._balance] *)
Definition _balance (self : Account.t) : M Z :=
  do aggregates <- gets (fun db =>
    Sum (Transaction.amount <$> account_transactions db (Account.id self)));
  match aggregates with
  | None => ret 0
  | Some sum => ret sum
  end.

(** [models.Model.save] on an account: the row with the instance's key is
    written (updated, or inserted when there is none). *)
Definition Model_save_account (self : Account.t) : M unit :=
  modify (fun db => set_accounts db (<[Account.id self := self]> (accounts db))).

(** [str.upper] *)
Definition ascii_upper (c : ascii) : ascii :=
  let n := nat_of_ascii c in
  if (97 <=? n)%nat && (n <=? 122)%nat then ascii_of_nat (n - 32) else c.

Fixpoint upper (s : string) : string :=
  match s with
  | EmptyString => EmptyString
  | String c s => String (ascii_upper c) (upper s)
  end.

(** The first statement of [Account.save]; a code that is [None] or empty is
    false in the condition. *)
Definition upper_code (self : Account.t) : Account.t :=
  match Account.code self with
  | None => self
  | Some code =>
      if String.eqb code "" then self
      else Account.set_code self (Some (upper code))
  end.

(** [Account.save] *)
Definition Account_save (self : Account.t) : M Account.t :=
  let self := upper_code self in
  do b <- _balance self;
  let self := Account.set_balance self (Some b) in
  run Model_save_account self;
  ret self.

(** [Account.has_credit_limit] *)
Definition has_credit_limit (self : Account.t) : bool :=
  match Account.credit_limit self with
  | None => false
  | Some _ => true
  end.

(** [Account.is_debit_permitted]: [self.balance + self.credit_limit] raises
    [TypeError] when the balance is [None]. *)
Definition is_debit_permitted (self : Account.t) (amount : Z) : result bool :=
  match Account.credit_limit self with
  | None => Return true
  | Some limit =>
      match Account.balance self with
      | None => Raise TypeError
      | Some b =>
          let available := b + limit in
          Return (bool_decide (amount <= available))
      end
  end.

(** [Account.is_open] *)
Definition is_open (self : Account.t) : bool :=
  String.eqb (Account.status self) Account.OPEN.

(** [Account.close].  The module is Python 2 code, where [None > 0] is
    [False]. *)
Definition close (self : Account.t) : M Account.t :=
  if match Account.balance self with
     | Some b => bool_decide (b > 0)
     | None => false
     end
  then raise AccountNotEmpty
  else
    let self := Account.set_status self Account.CLOSED in
    Account_save self.

(** ** Transfer and Transaction *)

(** The key an [INSERT] without a key gives the new transfer: one past the
    largest key of the table. *)
Definition next_transfer_id (db : Store) : nat :=
  S (foldr Nat.max 0%nat (Transfer.row_id <$> transfers db)).

Definition has_transfer (db : Store) (i : nat) : bool :=
  existsb (fun r => Nat.eqb (Transfer.row_id r) i) (transfers db).

(** [models.Model.save] on a transfer: an [UPDATE] of the row with the
    instance's key when there is one, an [INSERT] otherwise, which gives an
    instance without a key its key. *)
Definition Model_save_transfer (self : Transfer.t) : M Transfer.t :=
  fun db =>
    match Transfer.id self with
    | Some i =>
        if has_transfer db i
        then (set_transfers db
                ((fun r => if Nat.eqb (Transfer.row_id r) i
                           then Transfer.to_row i self else r) <$> transfers db),
              Return self)
        else (set_transfers db (transfers db ++ [Transfer.to_row i self]),
              Return self)
    | None =>
        let i := next_transfer_id db in
        (set_transfers db (transfers db ++ [Transfer.to_row i self]),
         Return (Transfer.set_id self (Some i)))
    end.

(** [Transfer.save] *)
Definition Transfer_save (self : Transfer.t) : M Transfer.t :=
  let self :=
    match Transfer.user self with
    | Some user => Transfer.set_username self (User.username user)
    | None => self
    end in
  Model_save_transfer self.

(** [Transfer.authorisor_username] *)
Definition authorisor_username (self : Transfer.t) : string :=
  match Transfer.user self with
  | Some user => User.username user
  | None => Transfer.username self
  end.

(** [Transfer.delete] *)
Definition Transfer_delete (self : Transfer.t) : M unit :=
  raise (RuntimeError (Msg "Transfers cannot be deleted" [])).

(** [Transaction.delete] *)
Definition Transaction_delete (self : Transaction.t) : M unit :=
  raise (RuntimeError (Msg "Transactions cannot be deleted" [])).

(** [self.get_query_set().create(source=..., ...)] of the manager: a new
    instance (no key yet, [username] at the column's empty default) is built
    and saved. *)
Definition objects_create (source destination : Account.t) (amount : Z)
    (user : option User.t) (description : option string) : M Transfer.t :=
  Transfer_save
    (Transfer.mk None (Account.id source) (Account.id destination) amount
                 description user "").

(** [Meta.unique_together = ('transfer', 'account')]: the pair is taken. *)
Definition pair_taken (db : Store) (transfer account : nat) : bool :=
  existsb (fun tx => Nat.eqb (Transaction.transfer tx) transfer
                     && Nat.eqb (Transaction.account tx) account)
          (transactions db).

(** [transfer.transactions.create(account=..., amount=...)]: a ledger row is
    inserted; the database rejects a second row for the same transfer and
    account, and a row without a transfer. *)
Definition transactions_create (transfer : Transfer.t) (account : Account.t)
    (amount : Z) : M Transaction.t :=
  match Transfer.id transfer with
  | None => raise IntegrityError
  | Some tid =>
      fun db =>
        if pair_taken db tid (Account.id account)
        then (db, Raise IntegrityError)
        else
          let tx := Transaction.mk tid (Account.id account) amount in
          (set_transactions db (transactions db ++ [tx]), Return tx)
  end.

(** [Transfer.objects.get(id=i)], with [self.user] resolved against the user
    table as the instance's methods see it. *)
Definition Transfer_get (i : nat) : M Transfer.t :=
  fun db =>
    match find (fun r => Nat.eqb (Transfer.row_id r) i) (transfers db) with
    | None => (db, Raise DoesNotExist)
    | Some r =>
        let instance u :=
          Transfer.mk (Some (Transfer.row_id r)) (Transfer.row_source r)
                      (Transfer.row_destination r) (Transfer.row_amount r)
                      (Transfer.row_description r) u (Transfer.row_username r) in
        match Transfer.row_user_id r with
        | None => (db, Return (instance None))
        | Some uid =>
            match users db !! uid with
            | None => (db, Raise DoesNotExist)
            | Some name => (db, Return (instance (Some (User.mk uid name))))
            end
        end
    end.

(** ** The user table, as the rest of the project changes it *)

(** [user.save()]: the user's row takes the instance's [username]. *)
Definition User_save (user : User.t) : M unit :=
  modify (fun db => set_users db (<[User.id user := User.username user]> (users db))).

(** [user.delete()]: the row goes, and [on_delete=models.SET_NULL] nulls the
    [user] column of the transfers that pointed to it. *)
Definition User_delete (user : User.t) : M unit :=
  modify (fun db =>
    set_transfers
      (set_users db (delete (User.id user) (users db)))
      ((fun r => if bool_decide (Transfer.row_user_id r = Some (User.id user))
                 then Transfer.set_row_user_id r None else r) <$> transfers db)).

(** ** PostingManager *)

(** [PostingManager._wrap] *)
Definition _wrap {A} (obj : A) : A := obj.

(** [PostingManager.verify_transfer]: it reads its arguments only, so it is a
    function to [result]; returning [None] is [Return tt]. *)
Definition verify_transfer (source destination : Account.t) (amount : Z)
    : result unit :=
  if bool_decide (amount <= 0)
  then Raise (InvalidAmount (Msg "Debits must use a positive amount" []))
  else if negb (is_open source)
  then Raise (ClosedAccount (Msg "Source account has been closed" []))
  else if negb (is_open destination)
  then Raise (ClosedAccount (Msg "Destination account has been closed" []))
  else
    match is_debit_permitted source amount with
    | Raise e => Raise e
    | Return false =>
        let msg := "Unable to debit %.2f from account #%d:" in
        Raise (InsufficientFunds
                 (Msg msg [ArgDecimal amount; ArgInt (Account.id source)]))
    | Return true => Return tt
    end.

(** [PostingManager.create].  The result is the transfer together with the
    new values of the two account instances, which [save] has mutated.  The
    two [save] calls are reached only past the two inserts into the ledger,
    that is with accounts of different keys, hence with two different
    instances. *)
Definition create (source destination : Account.t) (amount : Z)
    (user : option User.t) (description : option string)
    : M (Transfer.t * Account.t * Account.t) :=
  run lift (verify_transfer source destination amount);
  commit_on_success (
    do transfer <- objects_create source destination amount user description;
    run transactions_create transfer source (- amount);
    run transactions_create transfer destination amount;
    do source <- Account_save source;
    do destination <- Account_save destination;
    ret (_wrap transfer, source, destination)).

(** ** Consistency of the store *)

(** The foreign key [Transaction.transfer]: every ledger row belongs to a
    transfer of the table. *)
Definition fk_transfer (db : Store) : bool :=
  forallb (fun tx => has_transfer db (Transaction.transfer tx)) (transactions db).

(** The ledger rows of a transfer. *)
Definition transfer_transactions (db : Store) (i : nat) : list Transaction.t :=
  filter (fun tx => Transaction.transfer tx = i) (transactions db).

(** The sum of a list of amounts. *)
Definition total (amounts : list Z) : Z := foldr Z.add 0 amounts.

(** The balance according to the ledger. *)
Definition ledger_balance (db : Store) (i : nat) : Z :=
  total (Transaction.amount <$> account_transactions db i).

(** ** The outcome of a posting *)

(** The instance that [objects_create] hands to the database, before it has
    a key: the snapshot of the user's name is taken when there is a user. *)
Definition new_transfer (source destination : Account.t) (amount : Z)
    (user : option User.t) (description : option string) : Transfer.t :=
  Transfer.mk None (Account.id source) (Account.id destination) amount
              description user
              (match user with Some u => User.username u | None => "" end).

(** The store a posting between two different accounts is expected to leave:
    one more transfer, two more ledger rows, and the two accounts saved with
    their balances recomputed. *)
Definition posted_store (db : Store) (source destination : Account.t) (amount : Z)
    (user : option User.t) (description : option string) : Store :=
  let tid := next_transfer_id db in
  let t := new_transfer source destination amount user description in
  let txs := (transactions db ++
              [Transaction.mk tid (Account.id source) (- amount);
               Transaction.mk tid (Account.id destination) amount])%list in
  let db3 := mkStore (accounts db) (transfers db ++ [Transfer.to_row tid t]) txs (users db) in
  let s' := Account.set_balance (upper_code source)
              (Some (ledger_balance db3 (Account.id source))) in
  let d' := Account.set_balance (upper_code destination)
              (Some (ledger_balance db3 (Account.id destination))) in
  set_accounts db3 (<[Account.id destination := d']> (<[Account.id source := s']> (accounts db))).

(** ** The managers of Account *)

(** [models.Q(start_date__lte=today) | models.Q(start_date=None)]; in SQL a
    comparison with a null column is not true. *)
Definition start_date__lte_or_None (today : Z) (a : Account.t) : bool :=
  match Account.start_date a with
  | Some s => bool_decide (s <= today)
  | None => true
  end.

(** [models.Q(end_date__gte=today) | models.Q(end_date=None)] *)
Definition end_date__gte_or_None (today : Z) (a : Account.t) : bool :=
  match Account.end_date a with
  | Some e => bool_decide (e >= today)
  | None => true
  end.

(** [end_date__lt=today] *)
Definition end_date__lt (today : Z) (a : Account.t) : bool :=
  match Account.end_date a with
  | Some e => bool_decide (e < today)
  | None => false
  end.

(** [ActiveAccountManager.get_query_set], with [today = datetime.date.today()];
    a query set is the map of the rows it selects, by key. *)
Definition ActiveAccountManager_get_query_set (today : Z) (db : Store)
    : gmap nat Account.t :=
  let qs := accounts db in
  filter (fun r => end_date__gte_or_None today r.2 = true)
    (filter (fun r => start_date__lte_or_None today r.2 = true) qs).

(** [ExpiredAccountManager.get_query_set] *)
Definition ExpiredAccountManager_get_query_set (today : Z) (db : Store)
    : gmap nat Account.t :=
  let qs := accounts db in
  filter (fun r => end_date__lt today r.2 = true) qs.

(** ** Counting and keys of the ledger *)

(** [Account.num_transactions] *)
Definition num_transactions (self : Account.t) : M nat :=
  gets (fun db => length (account_transactions db (Account.id self))).

(** The (transfer, account) pairs of the ledger, which [unique_together]
    keeps distinct. *)
Definition ledger_pairs (db : Store) : list (nat * nat) :=
  (fun tx => (Transaction.transfer tx, Transaction.account tx)) <$> transactions db.

(** [Transfer.objects.filter(id=i)] for one key: the row, if there is one. *)
Definition transfer_row (db : Store) (i : nat) : option Transfer.row :=
  find (fun r => Nat.eqb (Transfer.row_id r) i) (transfers db).

(** ** The reference of a transfer *)

(** ["%d" % n] for a natural number: its decimal digits. *)
Definition pct_d (n : nat) : string := NilEmpty.string_of_uint (Nat.to_uint n).

Fixpoint zeros (k : nat) : string :=
  match k with
  | O => ""
  | S k => String "0" (zeros k)
  end.

(** ["%08d" % n]: the digits, padded with zeros on the left to eight
    characters. *)
Definition pct_08d (n : nat) : string :=
  let digits := pct_d n in
  zeros (8 - String.length digits) ++ digits.

(** [Transfer.reference]; formatting [None] with [%d] raises [TypeError]. *)
Definition reference (self : Transfer.t) : result string :=
  match Transfer.id self with
  | None => Raise TypeError
  | Some i => Return (pct_08d i)
  end.

(** [Transfer.__unicode__] *)
Definition Transfer___unicode__ (self : Transfer.t) : result string :=
  reference self.

(** [int(s)] on a string of decimal digits. *)
Definition int_of_digits (s : string) : option nat :=
  Nat.of_uint <$> NilEmpty.uint_of_string s.

(** ** Sample accounts *)

(** An open account without a credit limit, and one with the defaults. *)
Definition rich : Account.t := Account.mk 1 None "Open" None (Some 0) None None.
Definition poor : Account.t := Account.new 2.

(** * Properties *)

(** ** Sums over the ledger *)

Lemma total_app (l1 l2 : list Z) : total (l1 ++ l2) = total l1 + total l2.
Proof.
  unfold total. induction l1 as [|x l1 IH]; simpl; [reflexivity|].
  rewrite IH. lia.
Qed.

Lemma Sum_total (l : list Z) :
  match Sum l with None => 0 | Some s => s end = total l.
Proof. destruct l; reflexivity. Qed.

Lemma _balance_ledger (self : Account.t) (db : Store) :
  _balance self db = (db, Return (ledger_balance db (Account.id self))).
Proof.
  unfold _balance, bind, gets, ledger_balance.
  rewrite <- Sum_total.
  destruct (Sum _); reflexivity.
Qed.

(** ** The code of an account *)

Lemma ascii_upper_idem (c : ascii) : ascii_upper (ascii_upper c) = ascii_upper c.
Proof. destruct c as [[] [] [] [] [] [] [] []]; reflexivity. Qed.

Lemma upper_idem (s : string) : upper (upper s) = upper s.
Proof.
  induction s as [|c s IH]; simpl; [reflexivity|].
  rewrite ascii_upper_idem, IH. reflexivity.
Qed.

Lemma upper_empty (s : string) : String.eqb (upper s) "" = String.eqb s "".
Proof. destruct s; reflexivity. Qed.

Lemma upper_code_id (self : Account.t) :
  Account.id (upper_code self) = Account.id self.
Proof.
  unfold upper_code. destruct (Account.code self) as [c|]; [|reflexivity].
  destruct (String.eqb c ""); reflexivity.
Qed.

Lemma upper_code_idem (self : Account.t) :
  upper_code (upper_code self) = upper_code self.
Proof.
  unfold upper_code at 2 3.
  destruct (Account.code self) as [c|] eqn:Hc; [|unfold upper_code; rewrite Hc; reflexivity].
  destruct (String.eqb c "") eqn:He; [unfold upper_code; rewrite Hc, He; reflexivity|].
  unfold upper_code. simpl. rewrite upper_empty, He, upper_idem. reflexivity.
Qed.

Lemma upper_code_set_balance (self : Account.t) (b : option Z) :
  upper_code (Account.set_balance self b) = Account.set_balance (upper_code self) b.
Proof.
  unfold upper_code. simpl. destruct (Account.code self) as [c|]; [|reflexivity].
  destruct (String.eqb c ""); reflexivity.
Qed.

Lemma upper_code_fields (self : Account.t) :
  Account.status (upper_code self) = Account.status self /\
  Account.credit_limit (upper_code self) = Account.credit_limit self /\
  Account.balance (upper_code self) = Account.balance self.
Proof.
  unfold upper_code. destruct (Account.code self) as [c|]; [|auto].
  destruct (String.eqb c ""); auto.
Qed.

(** What [Account.save] does to the store and to the instance. *)
Lemma Account_save_eq (self : Account.t) (db : Store) :
  let self' := Account.set_balance (upper_code self)
                 (Some (ledger_balance db (Account.id self))) in
  Account_save self db =
    (set_accounts db (<[Account.id self := self']> (accounts db)), Return self').
Proof.
  unfold Account_save, bind. rewrite _balance_ledger.
  unfold Model_save_account, modify, ret. simpl.
  rewrite upper_code_id. reflexivity.
Qed.

(** ** Account *)

(** C8. [is_active] is true exactly when today lies in the half-open window
    from [start_date] (included) to [end_date] (excluded); a null
    [start_date] leaves only [today < end_date] to hold, a null [end_date]
    leaves only [today >= start_date], and with both null it is true. *)
Theorem is_active_window (self : Account.t) (today : Z) :
  (is_active self today = true <->
     (forall s, Account.start_date self = Some s -> s <= today) /\
     (forall e, Account.end_date self = Some e -> today < e)) /\
  (forall e, Account.start_date self = None -> Account.end_date self = Some e ->
     is_active self today = bool_decide (today < e)) /\
  (forall s, Account.start_date self = Some s -> Account.end_date self = None ->
     is_active self today = bool_decide (today >= s)) /\
  (Account.start_date self = None -> Account.end_date self = None ->
     is_active self today = true).
Proof.
  unfold is_active.
  destruct (Account.start_date self) as [s|], (Account.end_date self) as [e|];
    (split; [|repeat split; intros; simplify_eq; reflexivity]).
  - rewrite andb_true_iff, !bool_decide_eq_true. split.
    + intros [Hs He]. split; intros ? [= <-]; assumption.
    + intros [Hs He]. split; [apply Hs | apply He]; reflexivity.
  - rewrite bool_decide_eq_true. split.
    + intros Hs. split; [intros ? [= <-]; lia | intros ? [=]].
    + intros [Hs _]. specialize (Hs s eq_refl). lia.
  - rewrite bool_decide_eq_true. split.
    + intros He. split; [intros ? [=] | intros ? [= <-]; assumption].
    + intros [_ He]. apply He. reflexivity.
  - split; [|reflexivity]. intros _. split; intros ? [=].
Qed.

Lemma is_active_window_witness :
  is_active (Account.mk 1 None "Open" (Some 0) (Some 0) (Some 10) (Some 20)) 15 = true /\
  is_active (Account.mk 1 None "Open" (Some 0) (Some 0) None (Some 20)) 20 = false /\
  is_active (Account.mk 1 None "Open" (Some 0) (Some 0) (Some 10) None) 10 = true /\
  is_active (Account.mk 1 None "Open" (Some 0) (Some 0) None None) 15 = true.
Proof.
  split; [|split; [|split]].
  - apply (proj1 (is_active_window
                    (Account.mk 1 None "Open" (Some 0) (Some 0) (Some 10) (Some 20)) 15)).
    split; intros ? [= <-]; lia.
  - exact (proj1 (proj2 (is_active_window
                    (Account.mk 1 None "Open" (Some 0) (Some 0) None (Some 20)) 20))
             20 eq_refl eq_refl).
  - exact (proj1 (proj2 (proj2 (is_active_window
                    (Account.mk 1 None "Open" (Some 0) (Some 0) (Some 10) None) 10)))
             10 eq_refl eq_refl).
  - exact (proj2 (proj2 (proj2 (is_active_window
                    (Account.mk 1 None "Open" (Some 0) (Some 0) None None) 15)))
             eq_refl eq_refl).
Defined.

(** C4. [is_debit_permitted(amount)] returns [True] exactly when
    [credit_limit] is null or [balance + credit_limit >= amount]; it is a
    function of the instance and the amount, and run as a computation it
    leaves the store as it was. *)
Theorem is_debit_permitted_iff (self : Account.t) (amount : Z) :
  (is_debit_permitted self amount = Return true <->
     Account.credit_limit self = None \/
     exists b limit, Account.balance self = Some b /\
                     Account.credit_limit self = Some limit /\
                     b + limit >= amount) /\
  (forall db : Store, fst (lift (is_debit_permitted self amount) db) = db).
Proof.
  split; [|reflexivity].
  unfold is_debit_permitted.
  destruct (Account.credit_limit self) as [limit|]; [|split; auto].
  destruct (Account.balance self) as [b|].
  - split.
    + intros [= H%bool_decide_eq_true]. right. exists b, limit.
      repeat split; lia.
    + intros [[=]|(b' & l' & [= <-] & [= <-] & H)].
      f_equal. apply bool_decide_eq_true. lia.
  - split; [intros [=]|].
    intros [[=]|(b' & l' & [=] & _)].
Qed.

(** C10. An account built with the defaults of its columns (credit limit
    0.00, balance 0.00) permits no debit of a strictly positive amount. *)
Theorem default_account_no_debit (i : nat) (amount : Z) :
  amount > 0 ->
  Account.credit_limit (Account.new i) = Some 0 /\
  Account.balance (Account.new i) = Some 0 /\
  is_debit_permitted (Account.new i) amount = Return false.
Proof.
  intros H. repeat split.
  unfold is_debit_permitted; simpl. f_equal.
  apply bool_decide_eq_false. lia.
Qed.

Lemma default_account_no_debit_witness :
  1 > 0 /\ is_debit_permitted (Account.new 3) 1 = Return false.
Proof.
  split; [lia|]. apply (default_account_no_debit 3 1). lia.
Defined.

(** C2. [Account.save] sets the cached balance, on the instance and in its
    row, to the sum of the amounts of the ledger rows of the account, which
    is 0.00 when there are none; the value does not depend on the balance the
    instance held before; and computing it again, or saving again, with no
    posting in between gives the same value. *)
Theorem save_recomputes_balance (self : Account.t) (db : Store) :
  exists self' db',
    Account_save self db = (db', Return self') /\
    Account.balance self' =
      Some (total (Transaction.amount <$> account_transactions db' (Account.id self))) /\
    accounts db' !! Account.id self = Some self' /\
    transactions db' = transactions db /\
    (account_transactions db (Account.id self) = [] ->
       Account.balance self' = Some 0) /\
    (forall b, snd (Account_save (Account.set_balance self b) db) = Return self') /\
    _balance self' db' = (db', Return (default 0 (Account.balance self'))) /\
    Account_save self' db' = (db', Return self').
Proof.
  eexists _, _. split; [apply Account_save_eq|]. simpl.
  repeat split.
  - apply lookup_insert_eq.
  - intros H. unfold ledger_balance. rewrite H. reflexivity.
  - intros b. rewrite Account_save_eq, upper_code_set_balance. reflexivity.
  - rewrite _balance_ledger. simpl. rewrite upper_code_id. reflexivity.
  - rewrite Account_save_eq. simpl. unfold set_accounts; simpl.
    rewrite upper_code_set_balance, upper_code_idem, upper_code_id.
    rewrite insert_insert_eq. reflexivity.
Qed.

Lemma save_recomputes_balance_witness :
  account_transactions empty_store 1 = [] /\
  exists self', snd (Account_save (Account.mk 1 None "Open" None (Some 700) None None)
                       empty_store) = Return self' /\
                Account.balance self' = Some 0.
Proof.
  split; [reflexivity|].
  destruct (save_recomputes_balance
              (Account.mk 1 None "Open" None (Some 700) None None) empty_store)
    as (self' & db' & Hsave & _ & _ & _ & Hzero & _).
  exists self'. split.
  - rewrite Hsave. reflexivity.
  - apply Hzero. reflexivity.
Defined.

(** C5. [close()] raises [AccountNotEmpty] and changes neither the instance
    nor the store when the balance is positive; when the balance is zero or
    negative it sets the status to [Closed] and saves the account. *)
Theorem close_spec (self : Account.t) (b : Z) (db : Store) :
  Account.balance self = Some b ->
  (b > 0 -> close self db = (db, Raise AccountNotEmpty)) /\
  (b <= 0 ->
     exists self' db',
       close self db = (db', Return self') /\
       Account.status self' = Account.CLOSED /\
       is_open self' = false /\
       Account.id self' = Account.id self /\
       accounts db' !! Account.id self = Some self').
Proof.
  intros Hb. unfold close. rewrite Hb. split; intros H.
  - rewrite bool_decide_eq_true_2 by lia. reflexivity.
  - rewrite bool_decide_eq_false_2 by lia.
    eexists _, _. split; [apply Account_save_eq|]. simpl.
    pose proof (upper_code_fields (Account.set_status self Account.CLOSED))
      as (Hst & _ & _).
    split; [exact Hst|].
    split; [unfold is_open; simpl; rewrite Hst; reflexivity|].
    split; [rewrite upper_code_id; reflexivity|].
    apply lookup_insert_eq.
Qed.

Lemma close_spec_witness :
  close (Account.mk 1 None "Open" (Some 0) (Some 500) None None) empty_store
    = (empty_store, Raise AccountNotEmpty) /\
  exists self' db',
    close (Account.mk 1 None "Open" (Some 0) (Some 0) None None) empty_store
      = (db', Return self') /\
    Account.status self' = "Closed".
Proof.
  split.
  - apply (close_spec (Account.mk 1 None "Open" (Some 0) (Some 500) None None) 500
             empty_store eq_refl). lia.
  - destruct (close_spec (Account.mk 1 None "Open" (Some 0) (Some 0) None None) 0
                empty_store eq_refl) as [_ H].
    destruct H as (self' & db' & Hc & Hs & _); [lia|].
    exists self', db'. split; assumption.
Defined.

(** ** PostingManager *)

(** ** Transfer keys *)

Lemma row_id_le_max (rows : list Transfer.row) (r : Transfer.row) :
  In r rows ->
  (Transfer.row_id r <= foldr Nat.max 0 (Transfer.row_id <$> rows))%nat.
Proof.
  induction rows as [|r' rows IH]; [intros []|].
  rewrite fmap_cons. cbn [foldr In].
  intros [->|H]; [lia|]. specialize (IH H). lia.
Qed.

Lemma has_transfer_lt_next (db : Store) (i : nat) :
  has_transfer db i = true -> (i < next_transfer_id db)%nat.
Proof.
  unfold has_transfer, next_transfer_id. rewrite existsb_exists.
  intros (r & Hin & Heq%Nat.eqb_eq). subst i.
  pose proof (row_id_le_max _ _ Hin). lia.
Qed.

Lemma next_transfer_id_fresh (db : Store) :
  has_transfer db (next_transfer_id db) = false.
Proof.
  destruct (has_transfer db (next_transfer_id db)) eqn:H; [|reflexivity].
  apply has_transfer_lt_next in H. lia.
Qed.

(** In a store whose ledger rows all belong to a transfer, the next key
    is not used by any ledger row. *)
Lemma fk_transfer_fresh (db : Store) (tx : Transaction.t) :
  fk_transfer db = true -> In tx (transactions db) ->
  Transaction.transfer tx <> next_transfer_id db.
Proof.
  unfold fk_transfer. rewrite forallb_forall. intros Hfk Hin Heq.
  specialize (Hfk tx Hin). rewrite Heq, next_transfer_id_fresh in Hfk.
  discriminate.
Qed.

Lemma pair_taken_fresh (db : Store) (a : nat) :
  fk_transfer db = true ->
  pair_taken db (next_transfer_id db) a = false.
Proof.
  intros Hfk. unfold pair_taken.
  apply not_true_is_false. rewrite existsb_exists.
  intros (tx & Hin & H). apply andb_true_iff in H as [H%Nat.eqb_eq _].
  exact (fk_transfer_fresh db tx Hfk Hin H).
Qed.

Lemma transfer_transactions_fresh (db : Store) :
  fk_transfer db = true ->
  transfer_transactions db (next_transfer_id db) = [].
Proof.
  intros Hfk. unfold transfer_transactions.
  pose proof (fk_transfer_fresh db) as Hfresh.
  induction (transactions db) as [|tx txs IH]; [reflexivity|].
  rewrite filter_cons_False.
  - apply IH. intros tx' ? Hin. apply Hfresh; [assumption|]. right. exact Hin.
  - apply Hfresh; [assumption|]. left. reflexivity.
Qed.

Lemma objects_create_eq source destination amount user description db :
  let t := new_transfer source destination amount user description in
  let tid := next_transfer_id db in
  objects_create source destination amount user description db =
    (set_transfers db (transfers db ++ [Transfer.to_row tid t]),
     Return (Transfer.set_id t (Some tid))).
Proof. destruct user; reflexivity. Qed.

Lemma verify_transfer_ok (source destination : Account.t) (amount : Z) :
  amount > 0 -> is_open source = true -> is_open destination = true ->
  is_debit_permitted source amount = Return true ->
  verify_transfer source destination amount = Return tt.
Proof.
  intros Ha Hs Hd Hp. unfold verify_transfer.
  rewrite bool_decide_eq_false_2 by lia.
  rewrite Hs, Hd, Hp. reflexivity.
Qed.

Lemma create_eq db source destination amount user description :
  fk_transfer db = true ->
  Account.id source <> Account.id destination ->
  amount > 0 -> is_open source = true -> is_open destination = true ->
  is_debit_permitted source amount = Return true ->
  let db' := posted_store db source destination amount user description in
  create source destination amount user description db =
    (db',
     Return (Transfer.set_id (new_transfer source destination amount user description)
                             (Some (next_transfer_id db)),
             Account.set_balance (upper_code source)
               (Some (ledger_balance db' (Account.id source))),
             Account.set_balance (upper_code destination)
               (Some (ledger_balance db' (Account.id destination))))).
Proof.
  intros Hfk Hne Ha Hs Hd Hp db'.
  unfold create, bind at 1, lift.
  rewrite verify_transfer_ok by assumption.
  unfold commit_on_success, bind.
  rewrite objects_create_eq. simpl.
  pose proof (pair_taken_fresh db (Account.id source) Hfk) as Hsrc.
  pose proof (pair_taken_fresh db (Account.id destination) Hfk) as Hdst.
  unfold transactions_create, pair_taken in *. simpl.
  rewrite Hsrc. simpl.
  rewrite existsb_app, Hdst. simpl.
  rewrite Nat.eqb_refl. simpl.
  rewrite (proj2 (Nat.eqb_neq _ _) Hne). simpl.
  rewrite Account_save_eq. simpl.
  rewrite Account_save_eq. simpl.
  unfold db', posted_store, _wrap, set_accounts, set_transactions, set_transfers,
    ledger_balance, account_transactions. simpl.
  rewrite <- !app_assoc. reflexivity.
Qed.

(** A posting keeps every ledger row attached to a transfer. *)
Lemma posted_store_fk db source destination amount user description :
  fk_transfer db = true ->
  fk_transfer (posted_store db source destination amount user description) = true.
Proof.
  unfold fk_transfer, posted_store, has_transfer. simpl.
  rewrite !forallb_forall. intros Hfk tx Hin.
  rewrite existsb_app. apply orb_true_iff.
  apply in_app_or in Hin as [Hin|Hin].
  - left. apply Hfk, Hin.
  - right. simpl. destruct Hin as [<-|[<-|[]]]; simpl; rewrite Nat.eqb_refl; reflexivity.
Qed.

(** A failed [create] leaves the store as it found it. *)
Lemma create_Raise_unchanged source destination amount user description db db' e :
  create source destination amount user description db = (db', Raise e) ->
  db' = db.
Proof.
  unfold create, bind at 1, lift.
  destruct (verify_transfer source destination amount); [congruence|].
  unfold commit_on_success.
  match goal with |- context [let (_, _) := ?m db in _] => destruct (m db) as [db1 [e1|r1]] end;
    congruence.
Qed.

(** C1 (amended). In a store whose ledger rows all belong to a transfer, for
    an open source account and an open destination account with different
    keys and a positive amount whose debit the source permits,
    [create(source, destination, amount)] adds exactly one transfer and
    exactly two ledger rows, one for the source with [-amount] and one for
    the destination with [+amount], which sum to 0; it saves both accounts
    with their balances recomputed from the ledger, and returns the
    transfer. *)
Theorem create_posts_balanced_pair db source destination amount user description :
  fk_transfer db = true ->
  Account.id source <> Account.id destination ->
  is_open source = true ->
  is_open destination = true ->
  amount > 0 ->
  is_debit_permitted source amount = Return true ->
  exists db' transfer source' destination' tid,
    create source destination amount user description db
      = (db', Return (transfer, source', destination')) /\
    Transfer.id transfer = Some tid /\
    has_transfer db tid = false /\
    transfers db' = (transfers db ++ [Transfer.to_row tid transfer])%list /\
    Transfer.source transfer = Account.id source /\
    Transfer.destination transfer = Account.id destination /\
    Transfer.amount transfer = amount /\
    transactions db' =
      (transactions db ++
        [Transaction.mk tid (Account.id source) (- amount);
         Transaction.mk tid (Account.id destination) amount])%list /\
    transfer_transactions db' tid =
      [Transaction.mk tid (Account.id source) (- amount);
       Transaction.mk tid (Account.id destination) amount] /\
    total (Transaction.amount <$> transfer_transactions db' tid) = 0 /\
    source' = Account.set_balance (upper_code source)
                (Some (ledger_balance db' (Account.id source))) /\
    destination' = Account.set_balance (upper_code destination)
                     (Some (ledger_balance db' (Account.id destination))) /\
    accounts db' !! Account.id source = Some source' /\
    accounts db' !! Account.id destination = Some destination' /\
    ledger_balance db' (Account.id source) = ledger_balance db (Account.id source) - amount /\
    ledger_balance db' (Account.id destination) =
      ledger_balance db (Account.id destination) + amount /\
    fk_transfer db' = true.
Proof.
  intros Hfk Hne Hs Hd Ha Hp.
  eexists _, _, _, _, (next_transfer_id db).
  split; [apply create_eq; assumption|].
  assert (Htx : transfer_transactions
                  (posted_store db source destination amount user description)
                  (next_transfer_id db) =
                [Transaction.mk (next_transfer_id db) (Account.id source) (- amount);
                 Transaction.mk (next_transfer_id db) (Account.id destination) amount]).
  { unfold transfer_transactions, posted_store. simpl.
    rewrite filter_app.
    fold (transfer_transactions db (next_transfer_id db)).
    rewrite transfer_transactions_fresh by assumption. simpl.
    rewrite filter_cons_True by reflexivity.
    rewrite filter_cons_True by reflexivity. reflexivity. }
  split; [reflexivity|].
  split; [apply next_transfer_id_fresh|].
  split; [reflexivity|]. split; [reflexivity|]. split; [reflexivity|].
  split; [reflexivity|]. split; [reflexivity|].
  split; [exact Htx|].
  split; [rewrite Htx; unfold total; simpl; lia|].
  split; [reflexivity|]. split; [reflexivity|].
  split.
  { unfold posted_store. simpl. rewrite lookup_insert_ne by congruence.
    apply lookup_insert_eq. }
  split; [unfold posted_store; simpl; apply lookup_insert_eq|].
  split.
  { unfold posted_store, ledger_balance, account_transactions. simpl.
    rewrite filter_app, fmap_app, total_app.
    rewrite filter_cons_True by reflexivity.
    rewrite filter_cons_False by (simpl; congruence).
    unfold total. simpl. lia. }
  split.
  { unfold posted_store, ledger_balance, account_transactions. simpl.
    rewrite filter_app, fmap_app, total_app.
    rewrite filter_cons_False by (simpl; congruence).
    rewrite filter_cons_True by reflexivity.
    unfold total. simpl. lia. }
  apply posted_store_fk, Hfk.
Qed.

Lemma create_posts_balanced_pair_witness :
  let source := Account.mk 1 None "Open" (Some 0) (Some 1000) None None in
  let destination := Account.new 2 in
  exists db' transfer source' destination',
    create source destination 1000 None None empty_store
      = (db', Return (transfer, source', destination')) /\
    length (transfers db') = 1%nat /\
    length (transactions db') = 2%nat.
Proof.
  intros source destination.
  destruct (create_posts_balanced_pair empty_store source destination 1000 None None)
    as (db' & t & s' & d' & tid & Hc & _ & _ & Ht & _ & _ & _ & Htx & _);
    [reflexivity | simpl; lia | reflexivity | reflexivity | lia | reflexivity |].
  exists db', t, s', d'. split; [exact Hc|].
  rewrite Ht, Htx. split; reflexivity.
Defined.

(** C1 as stated fails when source and destination are one account. *)
Lemma create_same_account_fails :
  let a := Account.mk 1 None "Open" None (Some 0) None None in
  is_open a = true /\
  500 > 0 /\
  is_debit_permitted a 500 = Return true /\
  create a a 500 None None empty_store = (empty_store, Raise IntegrityError) /\
  ~ (exists db' transfer source' destination',
       create a a 500 None None empty_store
         = (db', Return (transfer, source', destination'))).
Proof.
  intros a. split; [reflexivity|]. split; [lia|]. split; [reflexivity|].
  assert (H : create a a 500 None None empty_store = (empty_store, Raise IntegrityError))
    by reflexivity.
  split; [exact H|].
  intros (db' & t & s' & d' & Hc). rewrite H in Hc. discriminate.
Qed.

(** C3. [create] checks, in this order and before it writes anything: a
    non-positive amount raises [InvalidAmount]; otherwise a source that is
    not open raises [ClosedAccount] naming the source; otherwise a
    destination that is not open raises [ClosedAccount] naming the
    destination; otherwise a debit the source does not permit raises
    [InsufficientFunds] with the amount and the source's key.  In each case,
    and whenever [create] raises, the store is left as it was: no transfer,
    no ledger row, no balance is written. *)
Theorem create_validation_order db source destination amount user description :
  (amount <= 0 ->
     create source destination amount user description db =
       (db, Raise (InvalidAmount (Msg "Debits must use a positive amount" [])))) /\
  (amount > 0 -> is_open source = false ->
     create source destination amount user description db =
       (db, Raise (ClosedAccount (Msg "Source account has been closed" [])))) /\
  (amount > 0 -> is_open source = true -> is_open destination = false ->
     create source destination amount user description db =
       (db, Raise (ClosedAccount (Msg "Destination account has been closed" [])))) /\
  (amount > 0 -> is_open source = true -> is_open destination = true ->
   is_debit_permitted source amount = Return false ->
     create source destination amount user description db =
       (db, Raise (InsufficientFunds
                     (Msg "Unable to debit %.2f from account #%d:"
                          [ArgDecimal amount; ArgInt (Account.id source)])))) /\
  (forall db' e,
     create source destination amount user description db = (db', Raise e) ->
     db' = db).
Proof.
  repeat split.
  - intros H. unfold create, bind, lift, verify_transfer.
    rewrite bool_decide_eq_true_2 by lia. reflexivity.
  - intros H Hs. unfold create, bind, lift, verify_transfer.
    rewrite bool_decide_eq_false_2 by lia. rewrite Hs. reflexivity.
  - intros H Hs Hd. unfold create, bind, lift, verify_transfer.
    rewrite bool_decide_eq_false_2 by lia. rewrite Hs, Hd. reflexivity.
  - intros H Hs Hd Hp. unfold create, bind, lift, verify_transfer.
    rewrite bool_decide_eq_false_2 by lia. rewrite Hs, Hd, Hp. reflexivity.
  - intros db' e. apply create_Raise_unchanged.
Qed.

Lemma create_validation_order_witness :
  let opened := Account.new 1 in
  let closed := Account.set_status (Account.new 2) Account.CLOSED in
  create opened opened 0 None None empty_store =
    (empty_store, Raise (InvalidAmount (Msg "Debits must use a positive amount" []))) /\
  create closed closed 1 None None empty_store =
    (empty_store, Raise (ClosedAccount (Msg "Source account has been closed" []))) /\
  create opened closed 1 None None empty_store =
    (empty_store, Raise (ClosedAccount (Msg "Destination account has been closed" []))) /\
  create opened opened 1 None None empty_store =
    (empty_store,
     Raise (InsufficientFunds
              (Msg "Unable to debit %.2f from account #%d:" [ArgDecimal 1; ArgInt 1]))).
Proof.
  intros opened closed. split; [|split; [|split]].
  - apply (create_validation_order empty_store opened opened 0 None None). lia.
  - apply (create_validation_order empty_store closed closed 1 None None);
      [lia | reflexivity].
  - apply (create_validation_order empty_store opened closed 1 None None);
      [lia | reflexivity | reflexivity].
  - apply (create_validation_order empty_store opened opened 1 None None);
      [lia | reflexivity | reflexivity | reflexivity].
Defined.

(** C9. For an open account whose debit of a positive amount is permitted,
    [verify_transfer(a, a, amount)] raises nothing: the validation does not
    reject a posting from an account to itself.  The posting then fails in
    the database, on the second ledger row for the same transfer and
    account, and is rolled back. *)
Theorem verify_transfer_same_account (a : Account.t) (amount : Z) :
  is_open a = true ->
  amount > 0 ->
  is_debit_permitted a amount = Return true ->
  verify_transfer a a amount = Return tt /\
  (forall db user description,
     create a a amount user description db = (db, Raise IntegrityError)).
Proof.
  intros Ho Ha Hp.
  pose proof (verify_transfer_ok a a amount Ha Ho Ho Hp) as Hv.
  split; [exact Hv|]. intros db user description.
  unfold create, bind at 1, lift. rewrite Hv.
  unfold commit_on_success, bind.
  rewrite objects_create_eq. simpl.
  unfold transactions_create, pair_taken. simpl.
  match goal with |- context [existsb ?f (transactions db)] =>
    destruct (existsb f (transactions db)) eqn:E end; [reflexivity|].
  simpl. rewrite existsb_app. simpl.
  rewrite !Nat.eqb_refl. simpl. rewrite orb_true_r. reflexivity.
Qed.

Lemma verify_transfer_same_account_witness :
  let a := Account.mk 1 None "Open" None (Some 0) None None in
  verify_transfer a a 500 = Return tt.
Proof.
  intros a.
  apply (verify_transfer_same_account a 500); [reflexivity | lia | reflexivity].
Defined.

(** ** Transfer and Transaction *)

(** C7. [delete] on a transfer and on a ledger row always raises
    [RuntimeError], which is none of the validation errors [InvalidAmount],
    [ClosedAccount], [InsufficientFunds], [AccountNotEmpty], and leaves the
    store, hence the row, as it was. *)
Theorem delete_always_raises (db : Store) (transfer : Transfer.t) (tx : Transaction.t) :
  Transfer_delete transfer db =
    (db, Raise (RuntimeError (Msg "Transfers cannot be deleted" []))) /\
  Transaction_delete tx db =
    (db, Raise (RuntimeError (Msg "Transactions cannot be deleted" []))) /\
  (forall m, is_validation_error (RuntimeError m) = false) /\
  (forall m m', RuntimeError m <> InvalidAmount m' /\
                RuntimeError m <> ClosedAccount m' /\
                RuntimeError m <> InsufficientFunds m' /\
                RuntimeError m <> AccountNotEmpty).
Proof.
  repeat split; discriminate.
Qed.

(** What a successful [create] has done to the transfer table; it does not
    touch the user table. *)
Lemma create_Return_inv source destination amount user description db db' t s d :
  create source destination amount user description db = (db', Return (t, s, d)) ->
  t = Transfer.set_id (new_transfer source destination amount user description)
                      (Some (next_transfer_id db)) /\
  transfers db' =
    (transfers db ++
      [Transfer.to_row (next_transfer_id db)
         (new_transfer source destination amount user description)])%list /\
  users db' = users db.
Proof.
  unfold create, bind at 1, lift.
  destruct (verify_transfer source destination amount); [discriminate|].
  unfold commit_on_success, bind.
  rewrite objects_create_eq. simpl.
  unfold transactions_create. simpl.
  destruct (pair_taken _ _ _); [discriminate|].
  destruct (pair_taken _ _ _); [discriminate|].
  rewrite Account_save_eq. simpl. rewrite Account_save_eq. simpl.
  intros [= <- <- <- <-]. repeat split.
Qed.

(** Looking a key up in the transfer table: rows before one that do not
    carry the key are skipped. *)
Lemma find_transfer_app (rows : list Transfer.row) (r : Transfer.row) (i : nat) :
  existsb (fun r => Nat.eqb (Transfer.row_id r) i) rows = false ->
  find (fun r => Nat.eqb (Transfer.row_id r) i) (rows ++ [r]) =
  find (fun r => Nat.eqb (Transfer.row_id r) i) [r].
Proof.
  induction rows as [|r' rows IH]; [reflexivity|].
  cbn [existsb app find]. intros [H1 H2]%orb_false_iff.
  rewrite H1. apply IH, H2.
Qed.

Lemma existsb_fmap_row_id (f : Transfer.row -> Transfer.row) rows i :
  (forall r, Transfer.row_id (f r) = Transfer.row_id r) ->
  existsb (fun r => Nat.eqb (Transfer.row_id r) i) (f <$> rows) =
  existsb (fun r => Nat.eqb (Transfer.row_id r) i) rows.
Proof.
  intros Hf. induction rows as [|r rows IH]; [reflexivity|].
  rewrite fmap_cons. cbn [existsb]. rewrite Hf, IH. reflexivity.
Qed.

(** C6 (amended). For a transfer created with an authorising user, the
    [username] stored on the transfer is the user's name at creation, and
    the transfer read back later still carries it after the user is renamed
    or deleted.  [authorisor_username] is that name at creation; on the
    transfer read back it is the user's current name while the user exists,
    and the stored name once the user is deleted. *)
Theorem username_snapshot source destination amount user description db db' t s d :
  create source destination amount (Some user) description db
    = (db', Return (t, s, d)) ->
  Transfer.username t = User.username user /\
  authorisor_username t = User.username user /\
  exists tid,
    Transfer.id t = Some tid /\
    (forall name,
       let renamed := fst (User_save (User.mk (User.id user) name) db') in
       exists t',
         Transfer_get tid renamed = (renamed, Return t') /\
         Transfer.username t' = User.username user /\
         authorisor_username t' = name) /\
    (let deleted := fst (User_delete user db') in
     exists t',
       Transfer_get tid deleted = (deleted, Return t') /\
       Transfer.user t' = None /\
       Transfer.username t' = User.username user /\
       authorisor_username t' = User.username user).
Proof.
  intros (-> & Ht & Hu)%create_Return_inv.
  split; [reflexivity|]. split; [reflexivity|].
  exists (next_transfer_id db). split; [reflexivity|].
  pose proof (next_transfer_id_fresh db) as Hfresh. unfold has_transfer in Hfresh.
  split.
  - intros name renamed. unfold Transfer_get, renamed, User_save, modify.
    cbn [fst transfers users set_users].
    rewrite Ht, find_transfer_app by exact Hfresh.
    simpl. rewrite Nat.eqb_refl. simpl.
    rewrite lookup_insert_eq. eexists. split; [reflexivity|].
    split; reflexivity.
  - intros deleted. unfold Transfer_get, deleted, User_delete, modify.
    cbn [fst transfers users set_users set_transfers].
    rewrite Ht, fmap_app, fmap_cons, fmap_nil, find_transfer_app.
    + simpl. rewrite bool_decide_eq_true_2 by reflexivity.
      simpl. rewrite Nat.eqb_refl. simpl.
      eexists. split; [reflexivity|]. repeat split.
    + rewrite existsb_fmap_row_id; [exact Hfresh|].
      intros r. destruct (bool_decide _); reflexivity.
Qed.

Lemma username_snapshot_witness :
  let source := Account.mk 1 None "Open" None (Some 0) None None in
  let destination := Account.new 2 in
  exists db' t s d,
    create source destination 500 (Some (User.mk 7 "alice")) None empty_store
      = (db', Return (t, s, d)) /\
    Transfer.username t = "alice".
Proof.
  intros source destination.
  eexists _, _, _, _. split; [reflexivity|].
  eapply (username_snapshot source destination 500 (User.mk 7 "alice") None empty_store).
  reflexivity.
Defined.

(** C6 as stated fails for [authorisor_username]: once the user is renamed,
    the transfer read back reports the new name, not the name at creation. *)
Lemma authorisor_username_follows_rename :
  let source := Account.mk 1 None "Open" None (Some 0) None None in
  let destination := Account.new 2 in
  let user := User.mk 7 "alice" in
  exists db' t s d renamed t',
    create source destination 500 (Some user) None empty_store
      = (db', Return (t, s, d)) /\
    Transfer.id t = Some 1%nat /\
    authorisor_username t = "alice" /\
    User_save (User.mk 7 "bob") db' = (renamed, Return tt) /\
    Transfer_get 1 renamed = (renamed, Return t') /\
    Transfer.username t' = "alice" /\
    authorisor_username t' = "bob" /\
    authorisor_username t' <> User.username user.
Proof.
  intros source destination user.
  eexists _, _, _, _, _, _.
  split; [reflexivity|]. split; [reflexivity|]. split; [reflexivity|].
  split; [reflexivity|]. split; [reflexivity|]. split; [reflexivity|].
  split; [reflexivity|]. discriminate.
Qed.

(** * Further properties of the module *)

(** ** The managers of Account *)

Lemma active_lookup today db i a :
  ActiveAccountManager_get_query_set today db !! i = Some a <->
  accounts db !! i = Some a /\
  start_date__lte_or_None today a = true /\ end_date__gte_or_None today a = true.
Proof.
  unfold ActiveAccountManager_get_query_set.
  rewrite !map_lookup_filter_Some. simpl. tauto.
Qed.

Lemma expired_lookup today db i a :
  ExpiredAccountManager_get_query_set today db !! i = Some a <->
  accounts db !! i = Some a /\ end_date__lt today a = true.
Proof.
  unfold ExpiredAccountManager_get_query_set.
  rewrite map_lookup_filter_Some. simpl. tauto.
Qed.

(** X1. A row is in the query set of [Account.active] exactly when it is a
    row of the table that [is_active] accepts today, or one whose [end_date]
    is today and which has started: the manager keeps an account on its
    [end_date], [is_active] does not. *)
Theorem active_manager_vs_is_active today db i a :
  ActiveAccountManager_get_query_set today db !! i = Some a <->
  accounts db !! i = Some a /\
  (is_active a today = true \/
   (Account.end_date a = Some today /\
    forall s, Account.start_date a = Some s -> s <= today)).
Proof.
  rewrite active_lookup.
  unfold start_date__lte_or_None, end_date__gte_or_None, is_active.
  destruct (Account.start_date a) as [s|], (Account.end_date a) as [e|];
    rewrite ?andb_true_iff, ?bool_decide_eq_true;
    (split; intros [Hrow H]; (split; [exact Hrow|])).
  - destruct H as [Hs He]. destruct (decide (e = today)) as [->|Hne].
    + right. split; [reflexivity|]. intros ? [= <-]. exact Hs.
    + left. lia.
  - destruct H as [H|[[= ->] H]]; [lia|]. specialize (H s eq_refl). lia.
  - left. lia.
  - destruct H as [H|[[=] _]]. split; [lia|reflexivity].
  - destruct H as [_ He]. destruct (decide (e = today)) as [->|Hne].
    + right. split; [reflexivity|]. intros ? [=].
    + left. lia.
  - destruct H as [H|[[= ->] _]]; (split; [reflexivity|lia]).
  - left. reflexivity.
  - split; reflexivity.
Qed.

Lemma active_manager_vs_is_active_witness :
  let a := Account.mk 1 None "Open" (Some 0) (Some 0) None (Some 20) in
  let db := set_accounts empty_store {[1%nat := a]} in
  ActiveAccountManager_get_query_set 20 db !! 1%nat = Some a /\
  is_active a 20 = false.
Proof.
  intros a db. split; [|reflexivity].
  apply (active_manager_vs_is_active 20 db 1 a). split.
  - apply lookup_singleton_eq.
  - right. split; [reflexivity|]. intros s [=].
Defined.

(** X2. A row in the query set of [Account.expired] is not active by
    [is_active] and is not in the query set of [Account.active]; and every
    row of the table is expired, or active, or starts after today. *)
Theorem expired_manager_disjoint today db i a :
  accounts db !! i = Some a ->
  (ExpiredAccountManager_get_query_set today db !! i = Some a ->
     is_active a today = false /\
     ActiveAccountManager_get_query_set today db !! i = None) /\
  (ExpiredAccountManager_get_query_set today db !! i = Some a \/
   ActiveAccountManager_get_query_set today db !! i = Some a \/
   exists s, Account.start_date a = Some s /\ today < s).
Proof.
  intros Hrow. split.
  - intros [_ He]%expired_lookup. split.
    + unfold end_date__lt in He. unfold is_active.
      destruct (Account.end_date a) as [e|]; [|discriminate].
      apply bool_decide_eq_true in He.
      destruct (Account.start_date a).
      * apply andb_false_iff. right. apply bool_decide_eq_false. lia.
      * apply bool_decide_eq_false. lia.
    + destruct (ActiveAccountManager_get_query_set today db !! i) as [a'|] eqn:E;
        [|reflexivity].
      apply active_lookup in E as (Hrow' & _ & Hg).
      assert (a' = a) as -> by congruence.
      unfold end_date__lt in He. unfold end_date__gte_or_None in Hg.
      destruct (Account.end_date a); [|discriminate].
      apply bool_decide_eq_true in He, Hg. lia.
  - rewrite expired_lookup, active_lookup.
    unfold end_date__lt, start_date__lte_or_None, end_date__gte_or_None.
    destruct (Account.start_date a) as [s|] eqn:Hs.
    + destruct (decide (s <= today)); [|right; right; exists s; split; [reflexivity|lia]].
      destruct (Account.end_date a) as [e|].
      * destruct (decide (e < today)).
        -- left. split; [assumption|]. apply bool_decide_eq_true. assumption.
        -- right. left. repeat split; try assumption; apply bool_decide_eq_true; lia.
      * right. left. repeat split; try assumption. apply bool_decide_eq_true; lia.
    + destruct (Account.end_date a) as [e|].
      * destruct (decide (e < today)).
        -- left. split; [assumption|]. apply bool_decide_eq_true. assumption.
        -- right. left. repeat split; try assumption; apply bool_decide_eq_true; lia.
      * right. left. repeat split; assumption.
Qed.

Lemma expired_manager_disjoint_witness :
  let a := Account.mk 1 None "Open" (Some 0) (Some 0) None (Some 5) in
  let db := set_accounts empty_store {[1%nat := a]} in
  ExpiredAccountManager_get_query_set 10 db !! 1%nat = Some a /\
  is_active a 10 = false /\
  ActiveAccountManager_get_query_set 10 db !! 1%nat = None.
Proof.
  intros a db.
  assert (He : ExpiredAccountManager_get_query_set 10 db !! 1%nat = Some a).
  { apply expired_lookup. split; [apply lookup_singleton_eq|reflexivity]. }
  split; [exact He|].
  apply (expired_manager_disjoint 10 db 1 a); [apply lookup_singleton_eq|exact He].
Defined.

(** ** What a successful posting has done *)

Lemma verify_transfer_Return (source destination : Account.t) (amount : Z) :
  verify_transfer source destination amount = Return tt <->
  amount > 0 /\ is_open source = true /\ is_open destination = true /\
  is_debit_permitted source amount = Return true.
Proof.
  split.
  - unfold verify_transfer.
    destruct (bool_decide (amount <= 0)) eqn:Ha; [discriminate|].
    destruct (is_open source); [|discriminate].
    destruct (is_open destination); [|discriminate]. simpl.
    destruct (is_debit_permitted source amount) as [e|[]]; try discriminate.
    intros _. apply bool_decide_eq_false in Ha. repeat split. lia.
  - intros (Ha & Hs & Hd & Hp). apply verify_transfer_ok; assumption.
Qed.

Lemma pair_taken_false (db : Store) (t a : nat) :
  pair_taken db t a = false <-> (t, a) ∉ ledger_pairs db.
Proof.
  unfold pair_taken, ledger_pairs. rewrite <- not_true_iff_false, existsb_exists.
  rewrite list_elem_of_fmap. split; intros H Hin; apply H.
  - destruct Hin as (tx & [= -> ->] & Hin%list_elem_of_In).
    exists tx. rewrite !Nat.eqb_refl. split; [assumption|reflexivity].
  - destruct Hin as (tx & Hin%list_elem_of_In & [<-%Nat.eqb_eq <-%Nat.eqb_eq]%andb_true_iff).
    exists tx. split; [reflexivity|assumption].
Qed.

Lemma create_Return_posted source destination amount user description db db' t s d :
  create source destination amount user description db = (db', Return (t, s, d)) ->
  verify_transfer source destination amount = Return tt /\
  Account.id source <> Account.id destination /\
  ((next_transfer_id db, Account.id source) ∉ ledger_pairs db) /\
  ((next_transfer_id db, Account.id destination) ∉ ledger_pairs db) /\
  db' = posted_store db source destination amount user description /\
  t = Transfer.set_id (new_transfer source destination amount user description)
        (Some (next_transfer_id db)) /\
  s = Account.set_balance (upper_code source)
        (Some (ledger_balance db' (Account.id source))) /\
  d = Account.set_balance (upper_code destination)
        (Some (ledger_balance db' (Account.id destination))).
Proof.
  unfold create, bind at 1, lift.
  destruct (verify_transfer source destination amount) as [e|[]]; [discriminate|].
  unfold commit_on_success, bind.
  rewrite objects_create_eq. simpl.
  unfold transactions_create. simpl.
  destruct (pair_taken _ _ (Account.id source)) eqn:Hsrc; [discriminate|].
  destruct (pair_taken _ _ (Account.id destination)) eqn:Hdst; [discriminate|].
  unfold pair_taken in Hsrc, Hdst. simpl in Hsrc, Hdst.
  rewrite existsb_app in Hdst. apply orb_false_iff in Hdst as [Hdst Hne].
  simpl in Hne. rewrite Nat.eqb_refl, orb_false_r in Hne. simpl in Hne.
  apply Nat.eqb_neq in Hne.
  rewrite Account_save_eq. simpl. rewrite Account_save_eq. simpl.
  intros [= <- <- <- <-].
  split; [reflexivity|]. split; [exact Hne|].
  split; [apply pair_taken_false; exact Hsrc|].
  split; [apply pair_taken_false; exact Hdst|].
  unfold posted_store, _wrap, set_accounts, set_transactions, set_transfers,
    ledger_balance, account_transactions. simpl.
  rewrite <- !app_assoc. repeat split.
Qed.

(** The outcome of [create] on the ledger: the two rows of the posting are
    appended, or nothing is. *)
Lemma create_transactions source destination amount user description db :
  let db' := fst (create source destination amount user description db) in
  transactions db' = transactions db \/
  transactions db' =
    (transactions db ++
      [Transaction.mk (next_transfer_id db) (Account.id source) (- amount);
       Transaction.mk (next_transfer_id db) (Account.id destination) amount])%list.
Proof.
  intros db'. subst db'.
  destruct (create source destination amount user description db)
    as [db' [e|[[t s] d]]] eqn:Hc; simpl.
  - left. apply create_Raise_unchanged in Hc. congruence.
  - right. apply create_Return_posted in Hc as (_ & _ & _ & _ & -> & _). reflexivity.
Qed.

(** X3. Whatever [create] returns or raises, the sum of the [amount] column
    over the whole ledger is what it was; in particular it stays 0. *)
Theorem create_conserves_total source destination amount user description db :
  let db' := fst (create source destination amount user description db) in
  total (Transaction.amount <$> transactions db') =
  total (Transaction.amount <$> transactions db) /\
  (total (Transaction.amount <$> transactions db) = 0 ->
   total (Transaction.amount <$> transactions db') = 0).
Proof.
  intros db'.
  assert (H : total (Transaction.amount <$> transactions db') =
              total (Transaction.amount <$> transactions db)).
  { destruct (create_transactions source destination amount user description db)
      as [H|H]; fold db' in H; rewrite H; [reflexivity|].
    rewrite fmap_app, total_app. unfold total. simpl. lia. }
  split; [exact H|]. intros H0. rewrite H. exact H0.
Qed.

Lemma create_conserves_total_witness :
  total (Transaction.amount <$> transactions empty_store) = 0 /\
  total (Transaction.amount <$>
           transactions (fst (create rich poor 500 None None empty_store))) = 0.
Proof.
  split; [reflexivity|].
  apply (create_conserves_total rich poor 500 None None empty_store). reflexivity.
Defined.

(** X4. [create] never changes or removes a ledger row or a transfer: the
    old tables are prefixes of the new ones, the ledger grows by two rows or
    not at all, and the user table is untouched. *)
Theorem create_appends_only source destination amount user description db :
  let db' := fst (create source destination amount user description db) in
  transactions db `prefix_of` transactions db' /\
  transfers db `prefix_of` transfers db' /\
  users db' = users db /\
  (length (transactions db') = length (transactions db) \/
   length (transactions db') = S (S (length (transactions db)))).
Proof.
  intros db'. subst db'.
  destruct (create source destination amount user description db)
    as [db' [e|[[t s] d]]] eqn:Hc; simpl.
  - apply create_Raise_unchanged in Hc as ->. repeat split; auto.
  - apply create_Return_posted in Hc as (_ & _ & _ & _ & -> & _).
    unfold posted_store. simpl. repeat split.
    + eexists. reflexivity.
    + eexists. reflexivity.
    + right. rewrite length_app. simpl. lia.
Qed.

(** X5. [create] leaves every account other than its source and destination
    alone: its row, its balance according to the ledger and its number of
    transactions are unchanged. *)
Theorem create_frame source destination amount user description db other :
  Account.id other <> Account.id source ->
  Account.id other <> Account.id destination ->
  let db' := fst (create source destination amount user description db) in
  accounts db' !! Account.id other = accounts db !! Account.id other /\
  ledger_balance db' (Account.id other) = ledger_balance db (Account.id other) /\
  snd (num_transactions other db') = snd (num_transactions other db).
Proof.
  intros Hs Hd db'. subst db'.
  destruct (create source destination amount user description db)
    as [db' [e|[[t s] d]]] eqn:Hc; simpl.
  - apply create_Raise_unchanged in Hc as ->. repeat split.
  - apply create_Return_posted in Hc as (_ & _ & _ & _ & -> & _).
    assert (Hf : account_transactions
                   (posted_store db source destination amount user description)
                   (Account.id other) =
                 account_transactions db (Account.id other)).
    { unfold account_transactions, posted_store. simpl.
      rewrite filter_app.
      rewrite filter_cons_False by (simpl; congruence).
      rewrite filter_cons_False by (simpl; congruence).
      rewrite filter_nil. apply app_nil_r. }
    split.
    { unfold posted_store. simpl. rewrite !lookup_insert_ne by congruence. reflexivity. }
    split.
    { unfold ledger_balance. rewrite Hf. reflexivity. }
    unfold num_transactions, gets. simpl. rewrite Hf. reflexivity.
Qed.

Lemma create_frame_witness :
  accounts (fst (create rich poor 500 None None empty_store)) !! 3%nat = None.
Proof.
  apply (create_frame rich poor 500 None None empty_store (Account.new 3));
    simpl; lia.
Defined.

Lemma posted_account_transactions db source destination amount user description :
  Account.id source <> Account.id destination ->
  let db' := posted_store db source destination amount user description in
  account_transactions db' (Account.id source) =
    (account_transactions db (Account.id source) ++
      [Transaction.mk (next_transfer_id db) (Account.id source) (- amount)])%list /\
  account_transactions db' (Account.id destination) =
    (account_transactions db (Account.id destination) ++
      [Transaction.mk (next_transfer_id db) (Account.id destination) amount])%list.
Proof.
  intros Hne db'. unfold db', account_transactions, posted_store. simpl.
  rewrite !filter_app. split.
  - rewrite filter_cons_True by reflexivity.
    rewrite filter_cons_False by (simpl; congruence). reflexivity.
  - rewrite filter_cons_False by (simpl; congruence).
    rewrite filter_cons_True by reflexivity. reflexivity.
Qed.

(** X6. After a successful [create], [num_transactions] of the source and of
    the destination are each one more than before. *)
Theorem create_num_transactions source destination amount user description db db' t s d :
  create source destination amount user description db = (db', Return (t, s, d)) ->
  exists n m,
    num_transactions source db = (db, Return n) /\
    num_transactions destination db = (db, Return m) /\
    num_transactions source db' = (db', Return (S n)) /\
    num_transactions destination db' = (db', Return (S m)).
Proof.
  intros (_ & Hne & _ & _ & -> & _)%create_Return_posted.
  destruct (posted_account_transactions db source destination amount user description Hne)
    as [Hs Hd].
  eexists _, _. split; [reflexivity|]. split; [reflexivity|].
  unfold num_transactions, gets. rewrite Hs, Hd, !length_app. simpl.
  split; do 2 f_equal; lia.
Qed.

Lemma create_num_transactions_witness :
  exists db' n m,
    fst (create rich poor 500 None None empty_store) = db' /\
    num_transactions rich db' = (db', Return (S n)) /\
    num_transactions poor db' = (db', Return (S m)).
Proof.
  destruct (create rich poor 500 None None empty_store) as [db' [e|[[t s] d]]] eqn:Hc;
    [discriminate Hc|].
  destruct (create_num_transactions rich poor 500 None None empty_store db' t s d Hc)
    as (n & m & _ & _ & Hn & Hm).
  exists db', n, m. split; [reflexivity|]. split; assumption.
Defined.

(** X7. In a store whose ledger rows all belong to a transfer, [create]
    returns a transfer exactly when the amount is positive, both accounts are
    open, the source permits the debit, and source and destination are
    different accounts. *)
Theorem create_succeeds_iff source destination amount user description db :
  fk_transfer db = true ->
  ((exists db' r, create source destination amount user description db = (db', Return r)) <->
   amount > 0 /\ is_open source = true /\ is_open destination = true /\
   is_debit_permitted source amount = Return true /\
   Account.id source <> Account.id destination).
Proof.
  intros Hfk. split.
  - intros (db' & [[t s] d] & Hc).
    apply create_Return_posted in Hc as (Hv%verify_transfer_Return & Hne & _).
    tauto.
  - intros (Ha & Hs & Hd & Hp & Hne).
    eexists _, _. apply create_eq; assumption.
Qed.

Lemma create_succeeds_iff_witness :
  exists db' r, create rich poor 500 None None empty_store = (db', Return r).
Proof.
  apply (create_succeeds_iff rich poor 500 None None empty_store); [reflexivity|].
  split; [lia|]. split; [reflexivity|]. split; [reflexivity|].
  split; [reflexivity|]. simpl. lia.
Defined.

(** X8. When the source instance has a credit limit and its cached balance
    is the balance of the ledger, a successful [create] leaves the source
    with its old balance less the amount, and not below minus the limit. *)
Theorem create_respects_credit_limit source destination amount user description
    db db' t s d limit :
  create source destination amount user description db = (db', Return (t, s, d)) ->
  Account.credit_limit source = Some limit ->
  Account.balance source = Some (ledger_balance db (Account.id source)) ->
  exists b,
    Account.balance s = Some b /\
    b = ledger_balance db (Account.id source) - amount /\
    b >= - limit /\
    (Account.id s, Account.credit_limit s) = (Account.id source, Some limit).
Proof.
  intros (Hv%verify_transfer_Return & Hne & _ & _ & -> & _ & -> & _)%create_Return_posted
    Hl Hb.
  destruct Hv as (Ha & _ & _ & Hp).
  unfold is_debit_permitted in Hp. rewrite Hl, Hb in Hp.
  injection Hp as Hp. apply bool_decide_eq_true in Hp.
  destruct (posted_account_transactions db source destination amount user description Hne)
    as [Hs _].
  eexists. split; [reflexivity|].
  assert (Hbal : ledger_balance (posted_store db source destination amount user description)
                   (Account.id source) = ledger_balance db (Account.id source) - amount).
  { unfold ledger_balance. rewrite Hs, fmap_app, total_app. unfold total. simpl. lia. }
  split; [exact Hbal|]. split; [lia|].
  simpl. rewrite upper_code_id.
  destruct (upper_code_fields source) as (_ & -> & _). rewrite Hl. reflexivity.
Qed.

Lemma create_respects_credit_limit_witness :
  let source := Account.mk 1 None "Open" (Some 1000) (Some 0) None None in
  exists db' t s d b,
    create source poor 500 None None empty_store = (db', Return (t, s, d)) /\
    Account.balance s = Some b /\ b >= - 1000.
Proof.
  intros source.
  destruct (create source poor 500 None None empty_store) as [db' [e|[[t s] d]]] eqn:Hc;
    [discriminate Hc|].
  destruct (create_respects_credit_limit source poor 500 None None empty_store
              db' t s d 1000 Hc eq_refl eq_refl) as (b & Hb & _ & Hlim & _).
  exists db', t, s, d, b. split; [reflexivity|]. split; assumption.
Defined.

(** ** Invariants of the ledger *)

(** X9. [create] keeps every ledger row attached to a transfer of the
    table, whatever its outcome. *)
Theorem create_keeps_fk_transfer source destination amount user description db :
  fk_transfer db = true ->
  fk_transfer (fst (create source destination amount user description db)) = true.
Proof.
  intros Hfk.
  destruct (create source destination amount user description db)
    as [db' [e|[[t s] d]]] eqn:Hc; simpl.
  - apply create_Raise_unchanged in Hc as ->. exact Hfk.
  - apply create_Return_posted in Hc as (_ & _ & _ & _ & -> & _).
    apply posted_store_fk, Hfk.
Qed.

Lemma create_keeps_fk_transfer_witness :
  fk_transfer (fst (create rich poor 500 None None empty_store)) = true.
Proof.
  apply (create_keeps_fk_transfer rich poor 500 None None empty_store). reflexivity.
Defined.

(** X10. [create] keeps [unique_together]: if no two ledger rows share
    their transfer and account before, none do after, whatever the outcome. *)
Theorem create_keeps_unique_together source destination amount user description db :
  NoDup (ledger_pairs db) ->
  NoDup (ledger_pairs (fst (create source destination amount user description db))).
Proof.
  intros Hnd.
  destruct (create source destination amount user description db)
    as [db' [e|[[t s] d]]] eqn:Hc; simpl.
  - apply create_Raise_unchanged in Hc as ->. exact Hnd.
  - apply create_Return_posted in Hc as (_ & Hne & Hs & Hd & -> & _).
    unfold ledger_pairs, posted_store in *. simpl.
    rewrite fmap_app. apply NoDup_app. split; [exact Hnd|]. split.
    + intros p Hp Hin. simpl in Hin.
      apply elem_of_cons in Hin as [->|Hin]; [exact (Hs Hp)|].
      apply elem_of_cons in Hin as [->|Hin]; [exact (Hd Hp)|].
      apply elem_of_nil in Hin. exact Hin.
    + simpl. apply NoDup_cons. split.
      * rewrite list_elem_of_singleton. intros [=]. congruence.
      * apply NoDup_singleton.
Qed.

Lemma create_keeps_unique_together_witness :
  NoDup (ledger_pairs (fst (create rich poor 500 None None empty_store))).
Proof.
  apply (create_keeps_unique_together rich poor 500 None None empty_store).
  apply NoDup_nil_2.
Defined.

(** ** Saving and closing an account *)

Lemma upper_code_code (self : Account.t) :
  Account.code (upper_code self) = upper <$> Account.code self.
Proof.
  unfold upper_code. destruct (Account.code self) as [c|] eqn:Hc; [|rewrite Hc; reflexivity].
  destruct (String.eqb c "") eqn:He.
  - apply String.eqb_eq in He as ->. rewrite Hc. reflexivity.
  - reflexivity.
Qed.

(** X11. [Account.save] stores the code upper-cased: the saved code is
    [upper] of the code the instance had, and upper-casing it again changes
    nothing. *)
Theorem save_uppercases_code (self : Account.t) (db : Store) :
  exists self' db',
    Account_save self db = (db', Return self') /\
    Account.code self' = upper <$> Account.code self /\
    (forall c, Account.code self' = Some c -> upper c = c) /\
    accounts db' !! Account.id self = Some self'.
Proof.
  eexists _, _. split; [apply Account_save_eq|]. simpl.
  rewrite upper_code_code.
  split; [reflexivity|]. split; [|apply lookup_insert_eq].
  intros c Hc. destruct (Account.code self) as [c0|]; [|discriminate].
  injection Hc as <-. apply upper_idem.
Qed.

Lemma save_uppercases_code_witness :
  exists self' db',
    Account_save (Account.mk 1 (Some "gift-7x") "Open" None None None None) empty_store
      = (db', Return self') /\
    Account.code self' = Some "GIFT-7X".
Proof.
  destruct (save_uppercases_code
              (Account.mk 1 (Some "gift-7x") "Open" None None None None) empty_store)
    as (self' & db' & Hs & Hc & _).
  exists self', db'. split; [exact Hs|exact Hc].
Defined.

(** X12. [Account.save] writes the row of the account and nothing else:
    the other accounts, the transfers, the ledger and the users are as
    before. *)
Theorem save_writes_own_row_only (self : Account.t) (db : Store) :
  let db' := fst (Account_save self db) in
  (forall k, k <> Account.id self -> accounts db' !! k = accounts db !! k) /\
  transfers db' = transfers db /\
  transactions db' = transactions db /\
  users db' = users db /\
  (forall k, ledger_balance db' k = ledger_balance db k).
Proof.
  intros db'. unfold db'. rewrite Account_save_eq. simpl.
  repeat split. intros k Hk. apply lookup_insert_ne. congruence.
Qed.

Lemma save_writes_own_row_only_witness :
  accounts (fst (Account_save rich (set_accounts empty_store {[2%nat := poor]})))
    !! 2%nat = Some poor.
Proof.
  transitivity (accounts (set_accounts empty_store {[2%nat := poor]}) !! 2%nat);
    [|apply lookup_singleton_eq].
  apply (save_writes_own_row_only rich (set_accounts empty_store {[2%nat := poor]})).
  simpl. lia.
Defined.

Lemma close_Return (self self' : Account.t) (db db' : Store) :
  close self db = (db', Return self') ->
  self' = Account.set_balance (upper_code (Account.set_status self Account.CLOSED))
            (Some (ledger_balance db (Account.id self))) /\
  db' = set_accounts db (<[Account.id self := self']> (accounts db)).
Proof.
  unfold close. destruct (match Account.balance self with Some b => _ | None => _ end);
    [discriminate|].
  rewrite Account_save_eq. simpl. intros [= <- <-]. split; reflexivity.
Qed.

(** X13. [close] tests the cached balance but saves the recomputed one: an
    account that closes ends with the balance of the ledger, in the instance
    and in its row, and the ledger and the transfers are untouched. *)
Theorem close_saves_ledger_balance (self self' : Account.t) (db db' : Store) :
  close self db = (db', Return self') ->
  Account.balance self' = Some (ledger_balance db (Account.id self)) /\
  accounts db' !! Account.id self = Some self' /\
  transactions db' = transactions db /\
  transfers db' = transfers db.
Proof.
  intros [-> ->]%close_Return. simpl. repeat split. apply lookup_insert_eq.
Qed.

Lemma close_saves_ledger_balance_witness :
  exists self' db',
    close rich empty_store = (db', Return self') /\
    Account.balance self' = Some 0.
Proof.
  destruct (close rich empty_store) as [db' [e|self']] eqn:Hc; [discriminate Hc|].
  exists self', db'. split; [reflexivity|].
  apply (close_saves_ledger_balance rich self' empty_store db' Hc).
Defined.

(** X14. Once [close] has returned, a posting of a positive amount from
    the closed account raises [ClosedAccount] for the source, and one to it
    from an open account raises [ClosedAccount] for the destination; the
    store is not changed. *)
Theorem closed_account_rejects_postings (self self' other : Account.t) (db db' : Store)
    (amount : Z) (user : option User.t) (description : option string) (db2 : Store) :
  close self db = (db', Return self') ->
  amount > 0 ->
  create self' other amount user description db2 =
    (db2, Raise (ClosedAccount (Msg "Source account has been closed" []))) /\
  (is_open other = true ->
   create other self' amount user description db2 =
     (db2, Raise (ClosedAccount (Msg "Destination account has been closed" [])))).
Proof.
  intros [-> _]%close_Return Ha.
  assert (Hc : is_open (Account.set_balance
                 (upper_code (Account.set_status self Account.CLOSED))
                 (Some (ledger_balance db (Account.id self)))) = false).
  { unfold is_open. simpl.
    destruct (upper_code_fields (Account.set_status self Account.CLOSED)) as (-> & _).
    reflexivity. }
  split.
  - unfold create, bind, lift, verify_transfer.
    rewrite bool_decide_eq_false_2 by lia. rewrite Hc. reflexivity.
  - intros Ho. unfold create, bind, lift, verify_transfer.
    rewrite bool_decide_eq_false_2 by lia. rewrite Ho, Hc. reflexivity.
Qed.

Lemma closed_account_rejects_postings_witness :
  exists closed db',
    close rich empty_store = (db', Return closed) /\
    create closed poor 500 None None db' =
      (db', Raise (ClosedAccount (Msg "Source account has been closed" []))) /\
    create poor closed 500 None None db' =
      (db', Raise (ClosedAccount (Msg "Destination account has been closed" []))).
Proof.
  destruct (close rich empty_store) as [db' [e|closed]] eqn:Hc; [discriminate Hc|].
  exists closed, db'. split; [reflexivity|].
  destruct (closed_account_rejects_postings rich closed poor empty_store db' 500
              None None db' Hc) as [Hs Hd]; [lia|].
  split; [exact Hs|]. apply Hd. reflexivity.
Defined.

(** X15. [has_credit_limit] is false exactly when [is_debit_permitted]
    returns [True] for every amount. *)
Theorem has_credit_limit_iff (self : Account.t) :
  has_credit_limit self = false <->
  forall amount, is_debit_permitted self amount = Return true.
Proof.
  unfold has_credit_limit, is_debit_permitted.
  destruct (Account.credit_limit self) as [limit|]; split; try done.
  intros H. destruct (Account.balance self) as [b|].
  - specialize (H (b + limit + 1)). injection H as H.
    apply bool_decide_eq_true in H. lia.
  - specialize (H 0). discriminate.
Qed.

(** ** The reference of a transfer *)

Lemma length_string_of_uint (d : Decimal.uint) :
  String.length (NilEmpty.string_of_uint d) = Decimal.nb_digits d.
Proof. induction d; simpl; congruence. Qed.

Lemma usize_nb_digits (d : Decimal.uint) : Unsigned.usize d = Decimal.nb_digits d.
Proof. induction d; simpl; congruence. Qed.

Lemma length_append (s1 s2 : string) :
  String.length (s1 ++ s2) = (String.length s1 + String.length s2)%nat.
Proof. induction s1 as [|c s1 IH]; simpl; [reflexivity|]. rewrite IH. reflexivity. Qed.

Lemma length_zeros (k : nat) : String.length (zeros k) = k.
Proof. induction k as [|k IH]; simpl; [reflexivity|]. rewrite IH. reflexivity. Qed.

Lemma to_uint_normal (n : nat) : Decimal.unorm (Nat.to_uint n) = Nat.to_uint n.
Proof.
  transitivity (Nat.to_uint (Nat.of_uint (Nat.to_uint n))).
  - symmetry. apply Unsigned.to_of.
  - rewrite Unsigned.of_to. reflexivity.
Qed.

Lemma of_uint_lower (d : Decimal.uint) (k : nat) :
  (k * 10 ^ Decimal.nb_digits d <= Nat.of_uint_acc d k)%nat.
Proof.
  rewrite Unsigned.of_uint_acc_spec.
  pose proof (usize_nb_digits d) as E.
  set (a := Unsigned.usize d) in *. rewrite E. lia.
Qed.

(** A number below [10 ^ k] has at most [k] digits, for [k] at least one. *)
Lemma nb_digits_to_uint (n k : nat) :
  (n < 10 ^ S k)%nat -> (Decimal.nb_digits (Nat.to_uint n) <= S k)%nat.
Proof.
  intros Hn.
  pose proof (Unsigned.of_to n) as Hof.
  pose proof (to_uint_normal n) as Hnorm.
  assert (Hpow : forall d c, (1 <= c)%nat -> Nat.of_uint_acc d c = n ->
                   (Decimal.nb_digits d < S k)%nat).
  { intros d c Hc Hd. pose proof (of_uint_lower d c) as Hl. rewrite Hd in Hl.
    apply (Nat.pow_lt_mono_r_iff 10); [lia|].
    apply Nat.le_lt_trans with (m := n); [|exact Hn]. nia. }
  destruct (Nat.to_uint n) as [|d|d|d|d|d|d|d|d|d|d] eqn:Hu.
  - simpl. lia.
  - assert (Hd : d = Decimal.Nil \/ d <> Decimal.Nil)
      by (destruct d; [left; reflexivity | right; discriminate ..]).
    destruct Hd as [->|Hd]; [simpl; lia|].
    pose proof (nb_digits_unorm d Hd) as Hle.
    change (Decimal.unorm (Decimal.D0 d)) with (Decimal.unorm d) in Hnorm.
    rewrite Hnorm in Hle. simpl in Hle. lia.
  - apply (Hpow d 1%nat) in Hof; [simpl; lia | lia].
  - apply (Hpow d 2%nat) in Hof; [simpl; lia | lia].
  - apply (Hpow d 3%nat) in Hof; [simpl; lia | lia].
  - apply (Hpow d 4%nat) in Hof; [simpl; lia | lia].
  - apply (Hpow d 5%nat) in Hof; [simpl; lia | lia].
  - apply (Hpow d 6%nat) in Hof; [simpl; lia | lia].
  - apply (Hpow d 7%nat) in Hof; [simpl; lia | lia].
  - apply (Hpow d 8%nat) in Hof; [simpl; lia | lia].
  - apply (Hpow d 9%nat) in Hof; [simpl; lia | lia].
Qed.

Lemma uint_of_string_zeros (k : nat) (s : string) :
  NilEmpty.uint_of_string (zeros k ++ s) =
  Nat.iter k Decimal.D0 <$> NilEmpty.uint_of_string s.
Proof.
  induction k as [|k IH].
  - change (zeros 0 ++ s) with s.
    destruct (NilEmpty.uint_of_string s); reflexivity.
  - change (zeros (S k) ++ s) with (String "0" (zeros k ++ s)).
    cbn [NilEmpty.uint_of_string]. rewrite IH.
    destruct (NilEmpty.uint_of_string s); reflexivity.
Qed.

Lemma of_uint_iter_D0 (k : nat) (d : Decimal.uint) :
  Nat.of_uint (Nat.iter k Decimal.D0 d) = Nat.of_uint d.
Proof. induction k as [|k IH]; simpl; [reflexivity|]. exact IH. Qed.

Lemma int_of_digits_pct_08d (n : nat) : int_of_digits (pct_08d n) = Some n.
Proof.
  unfold int_of_digits, pct_08d, pct_d.
  rewrite uint_of_string_zeros, NilEmpty.usu. simpl.
  rewrite of_uint_iter_D0, Unsigned.of_to. reflexivity.
Qed.

Lemma length_pct_08d (n : nat) :
  (8 <= String.length (pct_08d n))%nat /\
  ((n < 10 ^ 8)%nat -> String.length (pct_08d n) = 8%nat).
Proof.
  unfold pct_08d, pct_d.
  rewrite length_append, length_zeros, length_string_of_uint.
  split; [lia|]. intros Hn%nb_digits_to_uint. lia.
Qed.

(** X16. [reference] raises [TypeError] for a transfer without a key;
    otherwise it is a string of at least eight characters, exactly eight for
    a key below 10^8, whose digits read back as the key. *)
Theorem reference_spec (self : Transfer.t) :
  (Transfer.id self = None -> reference self = Raise TypeError) /\
  (forall i, Transfer.id self = Some i ->
     exists ref,
       reference self = Return ref /\
       int_of_digits ref = Some i /\
       (8 <= String.length ref)%nat /\
       ((i < 10 ^ 8)%nat -> String.length ref = 8%nat)).
Proof.
  unfold reference. split; [intros ->; reflexivity|].
  intros i ->. eexists. split; [reflexivity|].
  split; [apply int_of_digits_pct_08d|apply length_pct_08d].
Qed.

Lemma reference_spec_witness :
  exists ref,
    reference (Transfer.mk (Some 42%nat) 1 2 500 None None "") = Return ref /\
    int_of_digits ref = Some 42%nat /\
    String.length ref = 8%nat.
Proof.
  destruct (reference_spec (Transfer.mk (Some 42%nat) 1 2 500 None None ""))
    as [_ H].
  destruct (H 42%nat eq_refl) as (ref & Hr & Hi & _ & Hl).
  exists ref. split; [exact Hr|]. split; [exact Hi|].
  apply Hl. apply Nat.lt_le_trans with (m := (10 ^ 2)%nat).
  - apply Nat.leb_le. reflexivity.
  - apply Nat.pow_le_mono_r; lia.
Defined.

(** X17. Two transfers with the same [reference] have the same key. *)
Theorem reference_injective (t1 t2 : Transfer.t) (ref : string) :
  reference t1 = Return ref -> reference t2 = Return ref ->
  Transfer.id t1 = Transfer.id t2.
Proof.
  unfold reference.
  destruct (Transfer.id t1) as [i|], (Transfer.id t2) as [j|]; try discriminate.
  intros [= <-] [= H].
  pose proof (int_of_digits_pct_08d i) as Hi.
  pose proof (int_of_digits_pct_08d j) as Hj.
  rewrite H in Hj. congruence.
Qed.

Lemma reference_injective_witness :
  Transfer.id (Transfer.mk (Some 42%nat) 1 2 500 None None "") =
  Transfer.id (Transfer.mk (Some 42%nat) 3 4 900 None None "").
Proof.
  apply (reference_injective _ _ "00000042"); reflexivity.
Defined.

(** ** Saving a transfer *)

Lemma find_row_update (rows : list Transfer.row) (new : Transfer.row) (i j : nat) :
  Transfer.row_id new = i ->
  find (fun r => Nat.eqb (Transfer.row_id r) j)
       ((fun r => if Nat.eqb (Transfer.row_id r) i then new else r) <$> rows) =
  if Nat.eqb i j
  then (if existsb (fun r => Nat.eqb (Transfer.row_id r) i) rows then Some new else None)
  else find (fun r => Nat.eqb (Transfer.row_id r) j) rows.
Proof.
  intros Hnew. induction rows as [|r rows IH]; [destruct (Nat.eqb i j); reflexivity|].
  rewrite fmap_cons. cbn [find existsb].
  destruct (Nat.eqb (Transfer.row_id r) i) eqn:Hr.
  - rewrite Hnew. apply Nat.eqb_eq in Hr. rewrite Hr.
    destruct (Nat.eqb i j) eqn:Hij; [reflexivity|]. exact IH.
  - destruct (Nat.eqb (Transfer.row_id r) j) eqn:Hrj.
    + apply Nat.eqb_eq in Hrj. subst j. rewrite Nat.eqb_sym, Hr. reflexivity.
    + rewrite IH. reflexivity.
Qed.

Lemma find_row_append (rows : list Transfer.row) (new : Transfer.row) (j : nat) :
  Transfer.row_id new <> j ->
  find (fun r => Nat.eqb (Transfer.row_id r) j) (rows ++ [new]) =
  find (fun r => Nat.eqb (Transfer.row_id r) j) rows.
Proof.
  intros Hne. induction rows as [|r rows IH]; cbn [app find].
  - rewrite (proj2 (Nat.eqb_neq _ _) Hne). reflexivity.
  - destruct (Nat.eqb (Transfer.row_id r) j); [reflexivity|exact IH].
Qed.

(** X18. [Transfer.save] returns the instance with a key (its own, or the
    next free one) and with [username] set to the name of its user when it
    has one; the row under that key is then the instance's, the rows under
    other keys are as before, the table grows by one row unless the key was
    already there, and ledger and accounts are untouched. *)
Theorem Transfer_save_lookup (self : Transfer.t) (db : Store) :
  exists self' i db',
    Transfer_save self db = (db', Return self') /\
    Transfer.id self' = Some i /\
    i = default (next_transfer_id db) (Transfer.id self) /\
    Transfer.username self' =
      match Transfer.user self with
      | Some user => User.username user
      | None => Transfer.username self
      end /\
    transfer_row db' i = Some (Transfer.to_row i self') /\
    (forall j, j <> i -> transfer_row db' j = transfer_row db j) /\
    length (transfers db') =
      (if has_transfer db i then length (transfers db) else S (length (transfers db))) /\
    transactions db' = transactions db /\
    accounts db' = accounts db.
Proof.
  unfold Transfer_save, Model_save_transfer, transfer_row.
  set (self1 := match Transfer.user self with
                | Some user => Transfer.set_username self (User.username user)
                | None => self
                end).
  assert (Hid : Transfer.id self1 = Transfer.id self)
    by (unfold self1; destruct (Transfer.user self); reflexivity).
  assert (Hname : Transfer.username self1 =
                  match Transfer.user self with
                  | Some user => User.username user
                  | None => Transfer.username self
                  end)
    by (unfold self1; destruct (Transfer.user self); reflexivity).
  rewrite Hid. destruct (Transfer.id self) as [i|] eqn:Hi.
  - destruct (has_transfer db i) eqn:Hhas.
    + exists self1, i. eexists. split; [reflexivity|]. simpl.
      split; [congruence|]. split; [reflexivity|]. split; [exact Hname|].
      split.
      { rewrite (find_row_update _ _ i i) by reflexivity.
        rewrite Nat.eqb_refl. unfold has_transfer in Hhas. rewrite Hhas. reflexivity. }
      split.
      { intros j Hj. rewrite (find_row_update _ _ i j) by reflexivity.
        rewrite (proj2 (Nat.eqb_neq i j)) by congruence. reflexivity. }
      rewrite length_fmap, Hhas. repeat split.
    + exists self1, i. eexists. split; [reflexivity|]. simpl.
      split; [congruence|]. split; [reflexivity|]. split; [exact Hname|].
      split.
      { rewrite find_transfer_app by exact Hhas. simpl.
        rewrite Nat.eqb_refl. reflexivity. }
      split.
      { intros j Hj. apply find_row_append. simpl. congruence. }
      rewrite length_app, Hhas. simpl. repeat split. lia.
  - pose proof (next_transfer_id_fresh db) as Hfresh.
    exists (Transfer.set_id self1 (Some (next_transfer_id db))), (next_transfer_id db).
    eexists. split; [reflexivity|]. simpl.
    split; [reflexivity|]. split; [reflexivity|]. split; [exact Hname|].
    split.
    { rewrite find_transfer_app by exact Hfresh. simpl.
      rewrite Nat.eqb_refl. reflexivity. }
    split.
    { intros j Hj. apply find_row_append. simpl. congruence. }
    rewrite Hfresh, length_app. simpl. repeat split. lia.
Qed.

Lemma Transfer_save_lookup_witness :
  exists self' db',
    Transfer_save (Transfer.mk None 1 2 500 None (Some (User.mk 7 "alice")) "")
      empty_store = (db', Return self') /\
    transfer_row db' 1 = Some (Transfer.mk_row 1 1 2 500 None (Some 7%nat) "alice") /\
    transfer_row db' 2 = None.
Proof.
  destruct (Transfer_save_lookup
              (Transfer.mk None 1 2 500 None (Some (User.mk 7 "alice")) "") empty_store)
    as (self' & i & db' & Hs & Hid & Hi & Hn & Hrow & Hother & _).
  exists self', db'. split; [exact Hs|].
  simpl in Hi. subst i.
  injection Hs as <- <-. split; [exact Hrow|].
  apply (Hother 2%nat). unfold next_transfer_id. simpl. lia.
Defined.

(** X19. The snapshot is taken at every [save], not only the first: when a
    transfer created with a user is read back after the user was renamed and
    saved again, its [username], on the instance and in the row, becomes the
    new name. *)
Theorem resave_refreshes_snapshot source destination amount user description
    db db' t s d (name : string) :
  create source destination amount (Some user) description db
    = (db', Return (t, s, d)) ->
  let renamed := fst (User_save (User.mk (User.id user) name) db') in
  exists i t1 t2 db2,
    Transfer.id t = Some i /\
    Transfer_get i renamed = (renamed, Return t1) /\
    Transfer.username t1 = User.username user /\
    Transfer_save t1 renamed = (db2, Return t2) /\
    Transfer.username t2 = name /\
    Transfer.row_username <$> transfer_row db2 i = Some name.
Proof.
  intros (-> & Ht & Hu)%create_Return_inv renamed.
  pose proof (next_transfer_id_fresh db) as Hfresh. unfold has_transfer in Hfresh.
  exists (next_transfer_id db).
  assert (Hget : Transfer_get (next_transfer_id db) renamed =
                 (renamed,
                  Return (Transfer.mk (Some (next_transfer_id db)) (Account.id source)
                            (Account.id destination) amount description
                            (Some (User.mk (User.id user) name)) (User.username user)))).
  { unfold Transfer_get, renamed, User_save, modify.
    cbn [fst transfers users set_users].
    rewrite Ht, find_transfer_app by exact Hfresh.
    simpl. rewrite Nat.eqb_refl. simpl.
    rewrite lookup_insert_eq. reflexivity. }
  assert (Hhas : has_transfer renamed (next_transfer_id db) = true).
  { unfold has_transfer, renamed, User_save, modify. cbn [fst transfers set_users].
    rewrite Ht, existsb_app. simpl. rewrite Nat.eqb_refl. apply orb_true_r. }
  eexists _, _, _. split; [reflexivity|]. split; [exact Hget|].
  split; [reflexivity|].
  unfold Transfer_save, Model_save_transfer. simpl. rewrite Hhas.
  split; [reflexivity|]. split; [reflexivity|].
  unfold transfer_row. simpl.
  rewrite (find_row_update _ _ (next_transfer_id db) (next_transfer_id db))
    by reflexivity.
  rewrite Nat.eqb_refl.
  unfold has_transfer, renamed, User_save, modify in Hhas.
  cbn [fst transfers set_users] in Hhas. rewrite Hhas. reflexivity.
Qed.

Lemma resave_refreshes_snapshot_witness :
  exists db' t s d,
    create rich poor 500 (Some (User.mk 7 "alice")) None empty_store
      = (db', Return (t, s, d)) /\
    exists i t1 t2 db2,
      Transfer.id t = Some i /\
      Transfer_save t1 (fst (User_save (User.mk 7 "bob") db')) = (db2, Return t2) /\
      Transfer.username t1 = "alice" /\
      Transfer.username t2 = "bob".
Proof.
  destruct (create rich poor 500 (Some (User.mk 7 "alice")) None empty_store)
    as [db' [e|[[t s] d]]] eqn:Hc; [discriminate Hc|].
  exists db', t, s, d. split; [reflexivity|].
  destruct (resave_refreshes_snapshot rich poor 500 (User.mk 7 "alice") None
              empty_store db' t s d "bob" Hc)
    as (i & t1 & t2 & db2 & Hi & _ & Hn1 & Hs & Hn2 & _).
  exists i, t1, t2, db2. repeat split; assumption.
Defined.
